(** * Market stress tracker: the scoring pipeline of [market_stress_engine.py]

    A shallow embedding of the scoring and aggregation code
    ([Indicator.scale_with_history], [VolatilityIndicator.calculate],
    [CompositeStress.compute], [DataManager.get_history]) and of the
    previous-session date computation, with the properties stated by the
    specification.

    Numeric model.  A Python/NumPy [float] is modelled by [pyfloat = option R]:
    [Some x] is the finite value [x] and [None] is [nan].  Arithmetic on finite
    values is exact (rounding and overflow are not modelled).  Comparisons with
    [nan] are false, as in IEEE 754, which is what decides the results of
    Python's [min] and [max] below.  The two statements that say "exactly"
    about the shipped weights are evaluated in binary64 as well
    ([Binary64]).

    [logging.error] only writes to the log and is left out. *)

From Stdlib Require Import String Reals Lra Lia ZArith Bool List.
From Stdlib Require PrimFloat.
Import ListNotations.

Local Open Scope R_scope.

(** ** Floats with [nan] *)

Definition pyfloat : Type := option R.

Definition nan : pyfloat := None.

Definition lift1 (f : R -> R) (a : pyfloat) : pyfloat :=
  match a with
  | Some x => Some (f x)
  | None => None
  end.

Definition lift2 (f : R -> R -> R) (a b : pyfloat) : pyfloat :=
  match a, b with
  | Some x, Some y => Some (f x y)
  | _, _ => None
  end.

Definition fadd : pyfloat -> pyfloat -> pyfloat := lift2 Rplus.
Definition fsub : pyfloat -> pyfloat -> pyfloat := lift2 Rminus.
Definition fmul : pyfloat -> pyfloat -> pyfloat := lift2 Rmult.

(** Division.  A zero divisor gives a non-finite float ([nan] for [0/0],
    an infinity otherwise).  The program divides by a possibly zero value in
    one place only, [pct_change], whose result is consumed by [rolling], and
    pandas turns infinities into [nan] there; so the non-finite result is
    [None]. *)
Definition fdiv (a b : pyfloat) : pyfloat :=
  match a, b with
  | Some x, Some y => if Req_dec_T y 0 then None else Some (x / y)
  | _, _ => None
  end.

Definition fsqrt (a : pyfloat) : pyfloat :=
  match a with
  | Some x => if Rlt_dec x 0 then None else Some (sqrt x)
  | None => None
  end.

(** [a < b] on floats: false as soon as one side is [nan]. *)
Definition py_lt (a b : pyfloat) : bool :=
  match a, b with
  | Some x, Some y => if Rlt_dec x y then true else false
  | _, _ => false
  end.

(** Python's two-argument [min(a, b)] and [max(a, b)]: the first argument is
    kept unless the second one compares strictly smaller (larger). *)
Definition py_min (a b : pyfloat) : pyfloat := if py_lt b a then b else a.
Definition py_max (a b : pyfloat) : pyfloat := if py_lt a b then b else a.

(** ** [math.erf]

    erf x = 2/sqrt(pi) * integral of exp(-t^2) for t from 0 to x. *)

Definition gauss (t : R) : R := exp (- (t * t)).

(** [gauss] is continuous, hence integrable on every interval. *)
Definition gauss_RI (a b : R) : Riemann_integrable gauss a b.
Proof.
  assert (Hc : continuity gauss) by (unfold gauss; reg).
  destruct (Rle_dec a b) as [Hab | Hab].
  - apply continuity_implies_RiemannInt; [exact Hab |].
    intros x _. apply Hc.
  - apply RiemannInt_P1, continuity_implies_RiemannInt; [lra |].
    intros x _. apply Hc.
Qed.

Definition gauss_int (a b : R) : R := RiemannInt (gauss_RI a b).

Definition erf (x : R) : R := 2 / sqrt PI * gauss_int 0 x.

Definition math_erf : pyfloat -> pyfloat := lift1 erf.

(** The standard normal cumulative distribution function, as the
    specification writes it. *)
Definition Phi (z : R) : R := 0.5 * (1 + erf (z / sqrt 2)).

(** ** NumPy reductions *)

Definition np_sum (a : list pyfloat) : pyfloat := fold_right fadd (Some 0) a.

Definition np_mean (a : list pyfloat) : pyfloat :=
  fdiv (np_sum a) (Some (INR (length a))).

(** [np.std] with its default [ddof=0]: the square root of the mean of the
    squared deviations from the mean. *)
Definition np_std (a : list pyfloat) : pyfloat :=
  let m := np_mean a in
  fsqrt (np_mean (map (fun x => fmul (fsub x m) (fsub x m)) a)).

(** The same statistics on finite samples, over the reals. *)
Definition rsum (l : list R) : R := fold_right Rplus 0 l.

Definition mean (l : list R) : R := rsum l / INR (length l).

Definition sq_dev (l : list R) : R :=
  rsum (map (fun x => (x - mean l) * (x - mean l)) l).

(** Population standard deviation: divisor [n]. *)
Definition pop_std (l : list R) : R := sqrt (sq_dev l / INR (length l)).

(** Sample (Bessel-corrected) standard deviation: divisor [n - 1]. *)
Definition sample_std (l : list R) : R :=
  sqrt (sq_dev l / (INR (length l) - 1)).

Definition clamp100 (x : R) : R := Rmax 0 (Rmin 100 x).

(** ** [Indicator.scale_with_history] *)

Definition scale_with_history (values : list pyfloat) (current : pyfloat)
  : pyfloat :=
  if (length values <? 10)%nat then Some 50
  else
    let m := np_mean values in
    let s := np_std values in
    if py_lt s (Some 1e-8) then Some 50
    else
      let z := fdiv (fsub current m) s in
      let sc :=
        fmul (fmul (Some 0.5) (fadd (Some 1) (math_erf (fdiv z (Some (sqrt 2))))))
             (Some 100) in
      py_max (Some 0) (py_min (Some 100) sc).

(** ** Exceptions

    Fallible code returns [inl e] when it raises [e]. *)

Inductive exn : Type :=
| KeyError (key : string)
| IndexError
| TypeError
| ZeroDivisionError
| ProviderError (msg : string).

Definition M (A : Type) : Type := (exn + A)%type.

Definition ret {A : Type} (a : A) : M A := inr a.

Definition raise {A : Type} (e : exn) : M A := inl e.

Definition bind {A B : Type} (m : M A) (k : A -> M B) : M B :=
  match m with
  | inl e => inl e
  | inr a => k a
  end.

Notation "x <- m ;; k" := (bind m (fun x => k))
  (at level 61, m at next level, right associativity).

(** [try: body except Exception as e: handler(e)] *)
Definition try_except {A : Type} (body : M A) (handler : exn -> M A) : M A :=
  match body with
  | inl e => handler e
  | inr a => inr a
  end.

(** ** pandas

    A [DataFrame] has an index (its length is [len(df)]) and named columns.
    Closing prices are finite values; a frame with missing closes is outside
    the model. *)

Record DataFrame : Type := mkDataFrame {
  index_len : nat;
  columns : list (string * list R)
}.

(** [pd.DataFrame()] *)
Definition empty_frame : DataFrame := mkDataFrame 0 [].

(** The frame of a price series: one row per observation, one [Close]
    column. *)
Definition frame_of_closes (close : list R) : DataFrame :=
  mkDataFrame (length close) [("Close"%string, close)].

(** [df.empty]: some axis has length 0. *)
Definition df_empty (df : DataFrame) : bool :=
  (index_len df =? 0)%nat || (length (columns df) =? 0)%nat.

Fixpoint assoc {A : Type} (k : string) (l : list (string * A)) : option A :=
  match l with
  | [] => None
  | (k', v) :: r => if String.eqb k k' then Some v else assoc k r
  end.

(** [df[key]] *)
Definition getitem (df : DataFrame) (key : string) : M (list R) :=
  match assoc key (columns df) with
  | Some c => ret c
  | None => raise (KeyError key)
  end.

(** [Series.pct_change()]: [p_i / p_(i-1) - 1], the first entry undefined. *)
Fixpoint pct_from (prev : R) (l : list R) : list pyfloat :=
  match l with
  | [] => []
  | p :: t => fsub (fdiv (Some p) (Some prev)) (Some 1) :: pct_from p t
  end.

Definition pct_change (close : list R) : list pyfloat :=
  match close with
  | [] => []
  | p0 :: t => nan :: pct_from p0 t
  end.

Definition all_finite (l : list pyfloat) : option (list R) :=
  fold_right
    (fun x acc =>
       match x, acc with
       | Some v, Some vs => Some (v :: vs)
       | _, _ => None
       end)
    (Some []) l.

(** One window of [rolling(window=w).std()]: defined when the window holds
    [w] finite observations ([min_periods] defaults to the window size); the
    standard deviation is pandas' default, [ddof=1]. *)
Definition window_std (w : nat) (win : list pyfloat) : pyfloat :=
  if (length win <? w)%nat then nan
  else
    match all_finite win with
    | Some xs => Some (sample_std xs)
    | None => nan
    end.

(** The window that ends at position [i]: positions [i-w+1 .. i]. *)
Definition window_at (w : nat) (s : list pyfloat) (i : nat) : list pyfloat :=
  skipn (S i - w) (firstn (S i) s).

Definition rolling_std (w : nat) (s : list pyfloat) : list pyfloat :=
  map (fun i => window_std w (window_at w s i)) (seq 0 (length s)).

Definition is_finite (x : pyfloat) : bool :=
  match x with
  | Some _ => true
  | None => false
  end.

(** [Series.dropna().values] *)
Definition dropna (s : list pyfloat) : list pyfloat := filter is_finite s.

(** [Series.iloc[-1]] *)
Definition iloc_last (s : list pyfloat) : M pyfloat :=
  match s with
  | [] => raise IndexError
  | _ :: _ => ret (last s nan)
  end.

(** ** [VolatilityIndicator.calculate] *)

(** [df["Close"].pct_change().rolling(window=10).std() * 100] *)
Definition rolling_volatility (close : list R) : list pyfloat :=
  map (fun v => fmul v (Some 100)) (rolling_std 10 (pct_change close)).

(** The body of [calculate] once the frame has been fetched.  The returns
    are stored in the frame as a new column and read back at once; the frame
    is not used again, so the column is a local value here. *)
Definition calculate_on (df : DataFrame) : M pyfloat :=
  if df_empty df || (index_len df <? 10)%nat then ret (Some 50)
  else
    close <- getitem df "Close" ;;
    let volatility := rolling_volatility close in
    let vol_series := dropna volatility in
    current_vol <- iloc_last volatility ;;
    ret (scale_with_history vol_series current_vol).

(** ** Configuration *)

Definition TICKERS : list (string * string) :=
  [ ("EURUSD=X", "EUR/USD");
    ("GC=F", "Gold");
    ("CL=F", "Crude Oil");
    ("DX-Y.NYB", "DXY");
    ("^BCOM", "Bloomberg Commodity Index");
    ("^SPGSCI", "S&P GSCI");
    ("^VIX", "VIX");
    ("^GVZ", "GVZ") ]%string.

Definition WEIGHTS : list (string * R) :=
  [ ("EURUSD=X"%string, 0.07);
    ("GC=F"%string, 0.10);
    ("CL=F"%string, 0.10);
    ("DX-Y.NYB"%string, 0.05);
    ("^BCOM"%string, 0.10);
    ("^SPGSCI"%string, 0.10);
    ("^VIX"%string, 0.23);
    ("^GVZ"%string, 0.25) ].

(** [d.get(k, default)] *)
Definition dict_get {A : Type} (d : list (string * A)) (k : string) (default : A)
  : A :=
  match assoc k d with
  | Some v => v
  | None => default
  end.

(** ** [np.average] and [np.mean] on the score vector *)

Fixpoint zip_mul (a w : list pyfloat) : list pyfloat :=
  match a, w with
  | x :: a', y :: w' => fmul x y :: zip_mul a' w'
  | _, _ => []
  end.

Definition is_zero (x : pyfloat) : bool :=
  match x with
  | Some v => if Req_dec_T v 0 then true else false
  | None => false
  end.

(** [np.average(a, weights=w)]: shapes must agree and the weights must not
    sum to zero. *)
Definition np_average (a w : list pyfloat) : M pyfloat :=
  if negb (length a =? length w)%nat then raise TypeError
  else
    let scl := np_sum w in
    if is_zero scl then raise ZeroDivisionError
    else ret (fdiv (np_sum (zip_mul a w)) scl).

(** ** [DataManager] and [CompositeStress] *)

Record DataManager : Type := mkDataManager {
  start_date : string;
  end_date : string
}.

(** [self.indicators]: one [VolatilityIndicator] per key of [TICKERS], in
    order; an indicator is identified by its ticker. *)
Definition indicators : list string := map fst TICKERS.

(** [np.array([W.get(ind.ticker, 0.0) for ind in self.indicators])] *)
Definition weight_array (W : list (string * R)) : list pyfloat :=
  map (fun ticker => Some (dict_get W ticker 0)) indicators.

Section Engine.

(** The market-data provider, [yf.Ticker(ticker).history(start=, end=)]:
    it returns a frame or raises. *)
Variable yf_history : string -> string -> string -> M DataFrame.

(** [DataManager.get_history]: a provider error is answered with the empty
    frame.  The [lru_cache] around it only saves repeated provider calls: one
    [compute] asks for each ticker once. *)
Definition get_history (dm : DataManager) (ticker : string) : M DataFrame :=
  try_except
    (yf_history ticker (start_date dm) (end_date dm))
    (fun _ => ret empty_frame).

Definition calculate (dm : DataManager) (ticker : string) : M pyfloat :=
  df <- get_history dm ticker ;;
  calculate_on df.

(** The loop of [compute]: one score per indicator, [50.0] in place of a
    score whose computation raised. *)
Fixpoint scores (dm : DataManager) (inds : list string) : M (list pyfloat) :=
  match inds with
  | [] => ret []
  | ticker :: rest =>
      v <- try_except (calculate dm ticker) (fun _ => ret (Some 50)) ;;
      vs <- scores dm rest ;;
      ret (v :: vs)
  end.

(** [CompositeStress.compute], for a weight table [W] in place of the
    global [WEIGHTS]. *)
Definition compute_with (W : list (string * R)) (dm : DataManager)
  : M (pyfloat * list pyfloat) :=
  values <- scores dm indicators ;;
  let weights := weight_array W in
  composite <-
    (if py_lt (Some 0) (np_sum weights) then np_average values weights
     else ret (np_mean values)) ;;
  ret (py_max (Some 0) (py_min (Some 100) composite), values).

Definition compute (dm : DataManager) : M (pyfloat * list pyfloat) :=
  compute_with WEIGHTS dm.

End Engine.

(** ** The previous session's end date

    A date is its day number, counted from 1970-01-01. *)

Local Open Scope Z_scope.

(** [pd.to_datetime("YYYY-MM-DD")], as a day number. *)
Definition to_datetime (y m d : Z) : Z :=
  let y' := if m <=? 2 then y - 1 else y in
  let era := y' / 400 in
  let yoe := y' - era * 400 in
  let mp := if m <=? 2 then m + 9 else m - 3 in
  let doy := (153 * mp + 2) / 5 + d - 1 in
  let doe := yoe * 365 + yoe / 4 - yoe / 100 + doy in
  era * 146097 + doe - 719468.

(** Monday is 0 and Sunday is 6; 1970-01-01 was a Thursday. *)
Definition weekday (d : Z) : Z := (d + 3) mod 7.

(** [BusinessDay.is_on_offset] *)
Definition is_business_day (d : Z) : bool := weekday d <? 5.

(** [BusinessDay.rollback]: a weekend day moves back to its Friday. *)
Definition bday_rollback (d : Z) : Z :=
  if is_business_day d then d else d - (weekday d - 4).

(** [d - BusinessDay(1)] *)
Definition bday_sub1 (d : Z) : Z :=
  if weekday d =? 0 then d - 3
  else if weekday d =? 6 then d - 2
  else d - 1.

Fixpoint bdays_ending (periods : nat) (e : Z) : list Z :=
  match periods with
  | O => []
  | S n => bdays_ending n (bday_sub1 e) ++ [e]
  end.

(** [pd.bdate_range(end=e, periods=n)]: an end that is not a business day is
    rolled back first, then [n] consecutive business days end there. *)
Definition bdate_range (e : Z) (periods : nat) : list Z :=
  bdays_ending periods (bday_rollback e).

(** [l[i]] with Python's negative indices. *)
Definition py_index {A : Type} (l : list A) (i : Z) : M A :=
  let n := Z.of_nat (length l) in
  let j := if i <? 0 then i + n else i in
  if (j <? 0) || (n <=? j) then raise IndexError
  else
    match nth_error l (Z.to_nat j) with
    | Some a => ret a
    | None => raise IndexError
    end.

(** [last_business_day = pd.bdate_range(end=end_date, periods=2)[-2]] *)
Definition last_business_day (end_date : Z) : M Z :=
  py_index (bdate_range end_date 2) (-2).

(** The comparison range: three years of 365 days ending on
    [last_business_day]. *)
Definition comparison_range (end_date : Z) : M (Z * Z) :=
  lbd <- last_business_day end_date ;;
  ret (lbd - 365 * 3, lbd).

(** The specification's reading: the last business day strictly before
    [d]. *)
Definition prev_business_day (d : Z) : Z :=
  if is_business_day (d - 1) then d - 1
  else if is_business_day (d - 2) then d - 2
  else d - 3.

Local Close Scope Z_scope.

(** ** The shipped weights in binary64

    The weights as IEEE 754 doubles, and their sum in the orders a reduction
    may use: left to right, and pairwise over eight accumulators. *)

Module Binary64.
Import PrimFloat.
Set Warnings "-inexact-float".

Definition weights : list float :=
  [0.07; 0.10; 0.10; 0.05; 0.10; 0.10; 0.23; 0.25]%float.

Definition sum_sequential (l : list float) : float :=
  fold_left add l 0%float.

Definition sum_pairwise (l : list float) : float :=
  match l with
  | [r0; r1; r2; r3; r4; r5; r6; r7] =>
      ((r0 + r1) + (r2 + r3)) + ((r4 + r5) + (r6 + r7))
  | _ => sum_sequential l
  end%float.

Definition neutral : float := 50%float.

(** [np.average] of eight scores of 50.0 under these weights. *)
Definition neutral_average (sum : list float -> float) : float :=
  (sum (map (fun w => neutral * w) weights) / sum weights)%float.

End Binary64.

(** ** Specification-level definitions *)


(** The weights of the indicators, as reals. *)
Definition weight_vector (W : list (string * R)) : list R :=
  map (fun ticker => dict_get W ticker 0) indicators.

Fixpoint rdot (a w : list R) : R :=
  match a, w with
  | x :: a', y :: w' => x * y + rdot a' w'
  | _, _ => 0
  end.

Definition weighted_average (a w : list R) : R := rdot a w / rsum w.


(** The score the loop of [compute] records for one indicator. *)
Definition recorded_score
  (yf : string -> string -> string -> M DataFrame) (dm : DataManager)
  (ticker : string) : pyfloat :=
  match calculate yf dm ticker with
  | inl _ => Some 50
  | inr v => v
  end.

(** ** Sample inputs *)


(** A history of ten equal readings. *)
Definition constant_history : list R := repeat 5 10.

(** Twelve closes, the eleventh of them zero. *)
Definition zero_close_series : list R := [1; 1; 1; 1; 1; 1; 1; 1; 1; 1; 0; 1].

(** Eleven closes rising from 100 to 110. *)
Definition rising_series : list R :=
  [100; 101; 102; 103; 104; 105; 106; 107; 108; 109; 110].

(** A provider that is down: every request raises. *)
Definition failing_provider : string -> string -> string -> M DataFrame :=
  fun _ _ _ => raise (ProviderError "connection refused").

Definition sample_manager : DataManager :=
  mkDataManager "2022-06-30" "2025-06-29".

(** A misconfigured table: every weight is zero. *)
Definition zero_weights : list (string * R) :=
  map (fun kv => (fst kv, 0)) TICKERS.

(** A provider whose frame for the VIX lacks the [Close] column (so that
    [calculate] raises [KeyError]) and that is down for every other
    ticker. *)
Definition broken_provider : string -> string -> string -> M DataFrame :=
  fun ticker _ _ =>
    if String.eqb ticker "^VIX"
    then ret (mkDataFrame 12 [("Open"%string, repeat 17 12)])
    else raise (ProviderError "connection refused").

(** * The rest of the engine and of the dashboard

    The parts of [market_stress_engine.py], [dashboard_app.py] and
    [stress_index_plot.py] around the scoring pipeline: the memoisation of
    [get_history], the data handed to the radar chart, the date ranges of
    the two runs, the score tables, and the recorded index series. *)

(** ** [functools.lru_cache] around [get_history]

    The cache belongs to the function, not to one [DataManager]: its key is
    the pair of the manager object (hashed by identity) and the ticker.  An
    entry list keeps the most recently used key first.  The provider may
    answer differently from one call to the next: [yf_at n] is its behaviour
    at its [n]-th call. *)

Record DataManagerObject : Type := mkObject {
  object_id : nat;
  manager : DataManager
}.

Definition cache_key : Type := (nat * string)%type.

Definition key_eqb (a b : cache_key) : bool :=
  (fst a =? fst b)%nat && String.eqb (snd a) (snd b).

Record CacheState : Type := mkCache {
  entries : list (cache_key * DataFrame);
  provider_calls : nat
}.

Definition maxsize : nat := 32.

Definition empty_cache : CacheState := mkCache [] 0.

Fixpoint cache_find (k : cache_key) (l : list (cache_key * DataFrame))
  : option DataFrame :=
  match l with
  | [] => None
  | (k', df) :: r => if key_eqb k k' then Some df else cache_find k r
  end.

Fixpoint cache_remove (k : cache_key) (l : list (cache_key * DataFrame))
  : list (cache_key * DataFrame) :=
  match l with
  | [] => []
  | (k', df) :: r =>
      if key_eqb k k' then cache_remove k r else (k', df) :: cache_remove k r
  end.

(** The decorated [get_history]: a hit returns the stored frame and makes
    its key the most recent one; a miss calls the function, stores its
    result and drops the least recently used entry when the cache is full.
    A call that raises stores nothing. *)
Definition cached_get_history
  (yf_at : nat -> string -> string -> string -> M DataFrame)
  (self : DataManagerObject) (ticker : string) (st : CacheState)
  : M DataFrame * CacheState :=
  let k := (object_id self, ticker) in
  match cache_find k (entries st) with
  | Some df =>
      (ret df,
       mkCache ((k, df) :: cache_remove k (entries st)) (provider_calls st))
  | None =>
      match get_history (yf_at (provider_calls st)) (manager self) ticker with
      | inr df =>
          (ret df,
           mkCache (firstn maxsize ((k, df) :: entries st))
                   (S (provider_calls st)))
      | inl e => (raise e, mkCache (entries st) (S (provider_calls st)))
      end
  end.

(** The loop of [compute] over the decorated [get_history]. *)
Fixpoint scores_cached
  (yf_at : nat -> string -> string -> string -> M DataFrame)
  (self : DataManagerObject) (inds : list string) (st : CacheState)
  : M (list pyfloat) * CacheState :=
  match inds with
  | [] => (ret [], st)
  | ticker :: rest =>
      let (fetched, st1) := cached_get_history yf_at self ticker st in
      let v := try_except (df <- fetched ;; calculate_on df)
                          (fun _ => ret (Some 50)) in
      let (vs, st2) := scores_cached yf_at self rest st1 in
      (v' <- v ;; vs' <- vs ;; ret (v' :: vs'), st2)
  end.

(** [CompositeStress(dm).compute()] over the decorated [get_history]. *)
Definition compute_cached
  (yf_at : nat -> string -> string -> string -> M DataFrame)
  (W : list (string * R)) (self : DataManagerObject) (st : CacheState)
  : M (pyfloat * list pyfloat) * CacheState :=
  let (vals, st1) := scores_cached yf_at self indicators st in
  (values <- vals ;;
   let weights := weight_array W in
   composite <-
     (if py_lt (Some 0) (np_sum weights) then np_average values weights
      else ret (np_mean values)) ;;
   ret (py_max (Some 0) (py_min (Some 100) composite), values),
   st1).

(** The two runs of [main]: the requested range on one manager, then the
    comparison range on a second one. *)
Definition main_runs
  (yf_at : nat -> string -> string -> string -> M DataFrame)
  (dm dm_yesterday : DataManager)
  : M (pyfloat * list pyfloat) * M (pyfloat * list pyfloat) * CacheState :=
  let (today_run, st1) :=
    compute_cached yf_at WEIGHTS (mkObject 0 dm) empty_cache in
  let (yesterday_run, st2) :=
    compute_cached yf_at WEIGHTS (mkObject 1 dm_yesterday) st1 in
  (today_run, yesterday_run, st2).

(** The loop of [compute] without the cache, when the provider's [n]-th
    call behaves as [yf_at n]. *)
Fixpoint scores_at
  (yf_at : nat -> string -> string -> string -> M DataFrame)
  (n : nat) (dm : DataManager) (inds : list string) : M (list pyfloat) :=
  match inds with
  | [] => ret []
  | ticker :: rest =>
      v <- try_except (calculate (yf_at n) dm ticker)
                      (fun _ => ret (Some 50)) ;;
      vs <- scores_at yf_at (S n) dm rest ;;
      ret (v :: vs)
  end.

(** A well-formed cache: at most [maxsize] entries, no key twice. *)
Definition cache_ok (st : CacheState) : Prop :=
  (length (entries st) <= maxsize)%nat /\ NoDup (map fst (entries st)).

(** ** The data of the radar chart ([radar_plot], and the dashboard's
    section 6) *)

Definition radar_data (individual_values : list pyfloat)
  : M (list pyfloat * list string) :=
  let labels := map snd TICKERS in
  v0 <- py_index individual_values 0%Z ;;
  let values := individual_values ++ [v0] in
  l0 <- py_index labels 0%Z ;;
  let labels_closed := labels ++ [l0] in
  ret (values, labels_closed).

(** ** The date ranges of the two runs *)

(** [main]: the command line may give either date; the defaults are
    yesterday and 1095 days before yesterday. *)
Definition cli_ranges (today : Z) (arg_start arg_end : option Z)
  : M ((Z * Z) * (Z * Z)) :=
  let default_end := (today - 1)%Z in
  let default_start := (default_end - 365 * 3)%Z in
  let start_date := match arg_start with Some s => s | None => default_start end in
  let end_date := match arg_end with Some e => e | None => default_end end in
  yesterday <- comparison_range end_date ;;
  ret ((start_date, end_date), yesterday).

(** The dashboard: one date is chosen, the start is derived from it. *)
Definition dashboard_ranges (end_date : Z) : M ((Z * Z) * (Z * Z)) :=
  let start_date := (end_date - 365 * 3)%Z in
  yesterday <- comparison_range end_date ;;
  ret ((start_date, end_date), yesterday).

(** ** Rounding to two decimals

    [round(val, 2)]: the nearest multiple of 0.01, a tie going to the even
    one. *)

Definition rint (x : R) : Z :=
  let f := Int_part x in
  let d := x - IZR f in
  if Rlt_dec d (1 / 2) then f
  else if Rlt_dec (1 / 2) d then (f + 1)%Z
  else if Z.even f then f else (f + 1)%Z.

Definition round2 (x : R) : R := IZR (rint (x * 100)) / 100.

Definition py_round2 : pyfloat -> pyfloat := lift1 round2.

(** ** The score tables *)

(** What building a table can raise: a missing dictionary key, or columns
    of different lengths ([ValueError]). *)
Inductive table_exn : Type :=
| TableKeyError (key : string)
| TableValueError.

(** [[W[k] for k in TICKERS]] *)
Fixpoint weights_column (W : list (string * R)) (keys : list string)
  : table_exn + list R :=
  match keys with
  | [] => inr []
  | k :: rest =>
      match assoc k W with
      | None => inl (TableKeyError k)
      | Some w =>
          match weights_column W rest with
          | inl e => inl e
          | inr ws => inr (w :: ws)
          end
      end
  end.

Record score_row : Type := mkRow {
  component : string;
  score : pyfloat;
  weight : R;
  weighted_score : pyfloat
}.

Fixpoint zip_rows (names : list string) (scores : list pyfloat) (ws : list R)
  : list score_row :=
  match names, scores, ws with
  | n :: names', s :: scores', w :: ws' =>
      mkRow n s w (fmul s (Some w)) :: zip_rows names' scores' ws'
  | _, _, _ => []
  end.

(** The dashboard's [df_scores]: component, rounded score, weight and their
    product. *)
Definition df_scores (W : list (string * R)) (individual_vals : list pyfloat)
  : table_exn + list score_row :=
  let names := map snd TICKERS in
  let scores := map py_round2 individual_vals in
  match weights_column W (map fst TICKERS) with
  | inl e => inl e
  | inr ws =>
      if (length names =? length scores)%nat && (length names =? length ws)%nat
      then inr (zip_rows names scores ws)
      else inl TableValueError
  end.

(** [main]'s [df_out]: one row per component with its rounded score, then
    the [Composite] row. *)
Definition df_out (comp_value : pyfloat) (individual_values : list pyfloat)
  : table_exn + list (string * pyfloat) :=
  let names := map snd TICKERS in
  let scores := map py_round2 individual_values in
  if (length names =? length scores)%nat
  then inr (combine names scores ++ [("Composite"%string, py_round2 comp_value)])
  else inl TableValueError.

(** ** The recorded index series ([stress_index_plot.py]) *)

Module StressIndexPlot.

Definition dates : list (Z * Z * Z) :=
  [ (2025, 6, 16); (2025, 6, 17); (2025, 6, 18); (2025, 6, 19); (2025, 6, 20);
    (2025, 6, 23); (2025, 6, 24); (2025, 6, 25); (2025, 6, 26); (2025, 6, 27);
    (2025, 6, 30); (2025, 7, 1); (2025, 7, 2); (2025, 7, 3); (2025, 7, 4);
    (2025, 7, 7); (2025, 7, 8); (2025, 7, 9); (2025, 7, 10); (2025, 7, 11);
    (2025, 7, 14); (2025, 7, 15); (2025, 7, 16); (2025, 7, 17); (2025, 7, 18);
    (2025, 7, 21); (2025, 7, 22); (2025, 7, 23); (2025, 7, 24); (2025, 7, 25);
    (2025, 7, 28); (2025, 7, 29) ]%Z.

Definition values : list R :=
  [ 53.51; 50.78; 53.42; 53.83; 53.73;
    55.15; 59.69; 69.23; 70.21; 70.49;
    67.82; 57.97; 57.61; 50.2; 49.73;
    50.27; 51.9; 42.67; 29.57; 30.04;
    31.23; 32.87; 29.79; 29.98; 27.94;
    27.28; 27.27; 27.65; 31.01; 31.64;
    30.01; 31.19 ].

(** [x = [datetime.strptime(d, "%Y-%m-%d") for d in dates]] *)
Definition x : list Z :=
  map (fun d => to_datetime (fst (fst d)) (snd (fst d)) (snd d)) dates.

End StressIndexPlot.

(** ** More sample inputs *)

(** A price series that grows by the factor [g] every day. *)
Fixpoint geometric (p g : R) (n : nat) : list R :=
  match n with
  | O => []
  | S n' => p :: geometric (g * p) g n'
  end.


(** A table that lacks the weight of the VIX. *)
Definition incomplete_weights : list (string * R) :=
  filter (fun kv => negb (String.eqb (fst kv) "^VIX")) WEIGHTS.

(** A provider that is down at its first call and serves twelve closes
    from then on. *)
Definition recovering_provider
  : nat -> string -> string -> string -> M DataFrame :=
  fun n _ _ _ =>
    match n with
    | O => raise (ProviderError "connection refused")
    | S _ => ret (frame_of_closes (repeat 17 12))
    end.


(** Twenty-one closes: flat at 1, except a zero on the day before the
    last. *)
Definition spike_series : list R := repeat 1 19 ++ [0; 1].

(** A provider that serves [spike_series] for the VIX and is down for
    every other ticker. *)
Definition spike_provider : string -> string -> string -> M DataFrame :=
  fun ticker _ _ =>
    if String.eqb ticker "^VIX"
    then ret (frame_of_closes spike_series)
    else raise (ProviderError "connection refused").

(** * Properties *)

(** ** The error function *)

Lemma gauss_pos (t : R) : 0 < gauss t.
Proof. apply exp_pos. Qed.














Ltac case_Rle :=
  repeat match goal with
         | |- context [Rle_dec ?a ?b] => destruct (Rle_dec a b)
         end.

Lemma clamp100_bounds (x : R) : 0 <= clamp100 x <= 100.
Proof. unfold clamp100, Rmin. case_Rle; unfold Rmax; case_Rle; lra. Qed.


Lemma clamp100_id (x : R) : 0 <= x <= 100 -> clamp100 x = x.
Proof.
  intros Hx. unfold clamp100, Rmin. case_Rle; unfold Rmax; case_Rle; lra.
Qed.

(** ** Floats on finite values *)

Lemma py_min_finite (a b : R) : py_min (Some a) (Some b) = Some (Rmin a b).
Proof.
  unfold py_min, py_lt, Rmin.
  destruct (Rlt_dec b a), (Rle_dec a b); try reflexivity; lra.
Qed.

Lemma py_max_finite (a b : R) : py_max (Some a) (Some b) = Some (Rmax a b).
Proof.
  unfold py_max, py_lt, Rmax.
  destruct (Rlt_dec a b), (Rle_dec a b); try reflexivity; try lra.
  f_equal. lra.
Qed.

Lemma py_clamp_finite (x : R) :
  py_max (Some 0) (py_min (Some 100) (Some x)) = Some (clamp100 x).
Proof. rewrite py_min_finite, py_max_finite. reflexivity. Qed.

(** [nan] compares false against everything, so the clamp written with
    [min] and [max] sends it to 100. *)
Lemma py_clamp_nan : py_max (Some 0) (py_min (Some 100) nan) = Some 100.
Proof.
  unfold py_min, py_max, py_lt, nan.
  destruct (Rlt_dec 0 100); [reflexivity | lra].
Qed.

Lemma fdiv_finite (x y : R) : y <> 0 -> fdiv (Some x) (Some y) = Some (x / y).
Proof.
  intros Hy. unfold fdiv. destruct (Req_dec_T y 0); [contradiction | reflexivity].
Qed.

Lemma np_sum_finite (l : list R) : np_sum (map Some l) = Some (rsum l).
Proof.
  induction l as [| x l IH]; [reflexivity |].
  unfold np_sum in *. simpl. rewrite IH. reflexivity.
Qed.

Lemma INR_length_pos {A : Type} (l : list A) : l <> [] -> 0 < INR (length l).
Proof.
  intros Hl. destruct l as [| a l]; [contradiction |].
  apply lt_0_INR. simpl. lia.
Qed.

Lemma np_mean_finite (l : list R) :
  l <> [] -> np_mean (map Some l) = Some (mean l).
Proof.
  intros Hl. unfold np_mean. rewrite np_sum_finite, length_map.
  apply fdiv_finite. pose proof (INR_length_pos l Hl). lra.
Qed.

Lemma rsum_squares_nonneg (f : R -> R) (l : list R) :
  0 <= rsum (map (fun x => f x * f x) l).
Proof.
  induction l as [| x l IH]; simpl; [lra |].
  pose proof (Rle_0_sqr (f x)) as Hx. unfold Rsqr in Hx. lra.
Qed.

Lemma sq_dev_nonneg (l : list R) : 0 <= sq_dev l.
Proof. apply (rsum_squares_nonneg (fun x => x - mean l)). Qed.

Lemma variance_nonneg (l : list R) : l <> [] -> 0 <= sq_dev l / INR (length l).
Proof.
  intros Hl. apply Rle_mult_inv_pos; [apply sq_dev_nonneg | apply INR_length_pos, Hl].
Qed.

Lemma np_std_finite (l : list R) :
  l <> [] -> np_std (map Some l) = Some (pop_std l).
Proof.
  intros Hl. unfold np_std. rewrite (np_mean_finite l Hl), map_map. simpl.
  rewrite <- (map_map (fun x => (x - mean l) * (x - mean l)) Some).
  assert (Hne : map (fun x => (x - mean l) * (x - mean l)) l <> []).
  { destruct l; [contradiction | discriminate]. }
  rewrite (np_mean_finite _ Hne). unfold mean at 1. rewrite length_map.
  unfold fsqrt, pop_std, sq_dev.
  destruct (Rlt_dec _ 0) as [Hneg | _]; [| reflexivity].
  pose proof (variance_nonneg l Hl) as Hv. unfold sq_dev in Hv. lra.
Qed.

Lemma pop_std_nonneg (l : list R) : 0 <= pop_std l.
Proof. apply sqrt_pos. Qed.

(** ** [scale_with_history] in closed form *)

Lemma sqrt2_neq_0 : sqrt 2 <> 0.
Proof.
  assert (0 < sqrt 2) by (apply sqrt_lt_R0; lra). lra.
Qed.

(** The normal form of the function: which branch is taken, and with what
    value, for arbitrary arrays and readings ([nan] included). *)
Lemma scale_with_history_cases (values : list pyfloat) (current : pyfloat) :
  scale_with_history values current =
  if (length values <? 10)%nat then Some 50
  else
    match np_std values with
    | None => Some 100
    | Some s =>
        if Rlt_dec s 1e-8 then Some 50
        else
          match np_mean values, current with
          | Some m, Some c => Some (clamp100 (100 * Phi ((c - m) / s)))
          | _, _ => Some 100
          end
    end.
Proof.
  unfold scale_with_history.
  destruct (length values <? 10)%nat; [reflexivity |].
  destruct (np_std values) as [s |]; simpl.
  - destruct (Rlt_dec s 1e-8) as [Hs | Hs]; [reflexivity |].
    destruct (np_mean values) as [m |], current as [c |]; simpl;
      try apply py_clamp_nan.
    destruct (Req_dec_T s 0) as [H0 | _]; [lra |]. simpl.
    destruct (Req_dec_T (sqrt 2) 0) as [H2 | _];
      [exfalso; exact (sqrt2_neq_0 H2) |].
    simpl. rewrite py_clamp_finite. f_equal. f_equal.
    unfold Phi. ring.
  - destruct (fsub current (np_mean values)); apply py_clamp_nan.
Qed.

Lemma scale_with_history_finite (values : list pyfloat) (current : pyfloat) :
  exists r, scale_with_history values current = Some r /\ 0 <= r <= 100.
Proof.
  rewrite scale_with_history_cases.
  destruct (length values <? 10)%nat; [exists 50; split; [reflexivity | lra] |].
  destruct (np_std values) as [s |]; [| exists 100; split; [reflexivity | lra]].
  destruct (Rlt_dec s 1e-8); [exists 50; split; [reflexivity | lra] |].
  destruct (np_mean values) as [m |], current as [c |];
    try (exists 100; split; [reflexivity | lra]).
  eexists; split; [reflexivity | apply clamp100_bounds].
Qed.

(** ** Normalization ([scale_with_history]) *)












(** ** Degradation to the neutral score *)

Lemma calculate_on_short (df : DataFrame) :
  (index_len df < 10)%nat -> calculate_on df = inr (Some 50).
Proof.
  intros Hlen. unfold calculate_on.
  destruct (Nat.ltb_spec (index_len df) 10) as [_ | Hge]; [| lia].
  rewrite orb_true_r. reflexivity.
Qed.

Lemma calculate_on_empty (df : DataFrame) :
  df_empty df = true -> calculate_on df = inr (Some 50).
Proof. intros He. unfold calculate_on. rewrite He. reflexivity. Qed.

Lemma get_history_total
  (yf : string -> string -> string -> M DataFrame) (dm : DataManager)
  (ticker : string) :
  get_history yf dm ticker
  = inr (match yf ticker (start_date dm) (end_date dm) with
         | inl _ => empty_frame
         | inr df => df
         end).
Proof.
  unfold get_history, try_except.
  destruct (yf ticker (start_date dm) (end_date dm)); reflexivity.
Qed.

Lemma scale_with_history_short (values : list pyfloat) (current : pyfloat) :
  (length values < 10)%nat -> scale_with_history values current = Some 50.
Proof.
  intros Hlen. unfold scale_with_history.
  destruct (Nat.ltb_spec (length values) 10); [reflexivity | lia].
Qed.

Lemma scale_with_history_degenerate
  (values : list pyfloat) (current : pyfloat) (s : R) :
  np_std values = Some s -> s < 1e-8 ->
  scale_with_history values current = Some 50.
Proof.
  intros Hstd Hs. rewrite scale_with_history_cases, Hstd.
  destruct (length values <? 10)%nat; [reflexivity |].
  destruct (Rlt_dec s 1e-8); [reflexivity | contradiction].
Qed.

(** ** The rolling volatility series *)

Lemma pct_from_length (prev : R) (l : list R) :
  length (pct_from prev l) = length l.
Proof.
  revert prev. induction l as [| p t IH]; intros prev; simpl;
    [reflexivity | rewrite IH; reflexivity].
Qed.

Lemma pct_change_length (close : list R) :
  length (pct_change close) = length close.
Proof.
  destruct close as [| p0 t]; simpl; [| rewrite pct_from_length]; reflexivity.
Qed.



Lemma all_finite_map_Some (rs : list R) : all_finite (map Some rs) = Some rs.
Proof.
  induction rs as [| r rs IH]; [reflexivity |].
  unfold all_finite in *. simpl. rewrite IH. reflexivity.
Qed.

Lemma window_std_finite (w : nat) (rs : list R) :
  length rs = w -> window_std w (map Some rs) = Some (sample_std rs).
Proof.
  intros Hlen. unfold window_std. rewrite length_map, Hlen, Nat.ltb_irrefl.
  rewrite all_finite_map_Some. reflexivity.
Qed.


Lemma dropna_app (a b : list pyfloat) : dropna (a ++ b) = dropna a ++ dropna b.
Proof. apply filter_app. Qed.





Lemma fdiv_zero (a : pyfloat) : fdiv a (Some 0) = nan.
Proof.
  unfold fdiv. destruct a; [| reflexivity].
  destruct (Req_dec_T 0 0); [reflexivity | contradiction].
Qed.

Lemma all_finite_nan (l : list pyfloat) : In nan l -> all_finite l = None.
Proof.
  induction l as [| x l IH]; intros Hin; [contradiction |].
  unfold all_finite in *. simpl.
  destruct Hin as [-> | Hin]; [reflexivity |].
  rewrite (IH Hin). destruct x; reflexivity.
Qed.

Lemma window_std_nan (w : nat) (win : list pyfloat) :
  In nan win -> window_std w win = nan.
Proof.
  intros Hin. unfold window_std. rewrite (all_finite_nan win Hin).
  destruct (length win <? w)%nat; reflexivity.
Qed.


(** The first ten rolling volatilities are undefined: their windows reach
    back to the first return, which is [nan]. *)
Lemma early_window_nan (close : list R) (i : nat) :
  (i < 10)%nat -> (i < length close)%nat ->
  window_std 10 (window_at 10 (pct_change close) i) = nan.
Proof.
  intros Hi Hn. apply window_std_nan. unfold window_at.
  replace (S i - 10)%nat with 0%nat by lia.
  destruct close as [| p0 t]; [simpl in Hn; lia |].
  left. reflexivity.
Qed.

Lemma filter_none {A : Type} (p : A -> bool) (l : list A) :
  (forall x, In x l -> p x = false) -> filter p l = [].
Proof.
  induction l as [| x l IH]; intros Hp; [reflexivity |].
  simpl. rewrite (Hp x (or_introl eq_refl)).
  apply IH. intros y Hy. apply Hp. right. exact Hy.
Qed.

(** The history sample has at most [n - 10] values for [n] closes. *)
Lemma history_sample_length (close : list R) :
  (length (dropna (rolling_volatility close)) <= length close - 10)%nat.
Proof.
  unfold rolling_volatility, rolling_std, dropna.
  rewrite pct_change_length, map_map.
  set (h := fun i => fmul (window_std 10 (window_at 10 (pct_change close) i))
                          (Some 100)).
  assert (Hhead : forall i, (i < 10)%nat -> (i < length close)%nat ->
                            is_finite (h i) = false).
  { intros i Hi Hn. unfold h. rewrite early_window_nan by assumption.
    reflexivity. }
  destruct (Nat.le_gt_cases (length close) 10) as [Hle | Hgt].
  - rewrite filter_none; [simpl; lia |].
    intros x Hx. apply in_map_iff in Hx. destruct Hx as (i & <- & Hi).
    apply in_seq in Hi. apply Hhead; lia.
  - replace (length close) with (10 + (length close - 10))%nat at 1 by lia.
    rewrite seq_app, map_app, filter_app, length_app.
    rewrite filter_none.
    + simpl length at 1. rewrite Nat.add_0_l.
      eapply Nat.le_trans; [apply filter_length_le |].
      rewrite length_map, length_seq. lia.
    + intros x Hx. apply in_map_iff in Hx. destruct Hx as (i & <- & Hi).
      apply in_seq in Hi. apply Hhead; lia.
Qed.

(** A price series of fewer than 20 observations has a history sample of
    fewer than 10 values, and its score is the neutral one. *)
Lemma calculate_on_short_history (close : list R) :
  (length close < 20)%nat ->
  calculate_on (frame_of_closes close) = inr (Some 50).
Proof.
  intros Hlen.
  destruct (Nat.lt_ge_cases (length close) 10) as [Hlt | Hge].
  { apply calculate_on_short. exact Hlt. }
  unfold calculate_on, frame_of_closes, df_empty, getitem.
  cbn [index_len columns].
  destruct (Nat.eqb_spec (length close) 0) as [H0 | _]; [lia |].
  destruct (Nat.ltb_spec (length close) 10) as [H10 | _]; [lia |].
  cbn [length Nat.eqb orb assoc String.eqb Ascii.eqb Bool.eqb andb].
  unfold ret, bind.
  assert (Hne : rolling_volatility close <> []).
  { intros He. apply (f_equal (@length pyfloat)) in He.
    unfold rolling_volatility, rolling_std in He.
    rewrite !length_map, length_seq, pct_change_length in He.
    simpl in He. lia. }
  assert (Hlast : iloc_last (rolling_volatility close)
                  = inr (last (rolling_volatility close) nan)).
  { unfold iloc_last. destruct (rolling_volatility close);
      [contradiction | reflexivity]. }
  rewrite Hlast. f_equal. apply scale_with_history_short.
  pose proof (history_sample_length close). lia.
Qed.

(** ** Claim C2: the score is exactly 50.0, and nothing is raised, (a) for a
    price series of fewer than 10 observations (a failed fetch included: it
    is the empty series), (b) for a history sample of fewer than 10 values,
    which is what a price series of fewer than 20 observations yields, and
    (c) for a history sample whose standard deviation is below 1e-8, whatever
    the current reading, [nan] included. *)
Theorem neutral_score_degradation :
  (forall (yf : string -> string -> string -> M DataFrame) dm ticker,
      (forall df, yf ticker (start_date dm) (end_date dm) = inr df ->
                  (index_len df < 10)%nat) ->
      calculate yf dm ticker = inr (Some 50)) /\
  (forall values current,
      (length values < 10)%nat ->
      scale_with_history values current = Some 50) /\
  (forall close,
      (length close < 20)%nat ->
      (length (dropna (rolling_volatility close)) < 10)%nat /\
      calculate_on (frame_of_closes close) = inr (Some 50)) /\
  (forall values current s,
      np_std values = Some s -> s < 1e-8 ->
      scale_with_history values current = Some 50).
Proof.
  split; [| split; [| split]].
  - intros yf dm ticker Hshort. unfold calculate.
    rewrite get_history_total. simpl.
    apply calculate_on_short.
    destruct (yf ticker (start_date dm) (end_date dm)) as [e | df] eqn:Hy.
    + simpl. lia.
    + apply Hshort. reflexivity.
  - apply scale_with_history_short.
  - intros close Hlen. split; [| apply calculate_on_short_history, Hlen].
    pose proof (history_sample_length close). lia.
  - apply scale_with_history_degenerate.
Qed.

Lemma constant_history_std : pop_std constant_history = 0.
Proof.
  unfold pop_std, sq_dev.
  replace (mean constant_history) with 5
    by (unfold mean, constant_history; simpl; lra).
  unfold constant_history. simpl.
  replace ((5 - 5) * (5 - 5)) with 0 by ring.
  replace ((0 + (0 + (0 + (0 + (0 + (0 + (0 + (0 + (0 + (0 + 0))))))))))
           / (1 + 1 + 1 + 1 + 1 + 1 + 1 + 1 + 1 + 1)) with 0 by lra.
  apply sqrt_0.
Qed.

Lemma neutral_score_degradation_witness :
  calculate (fun _ _ _ => inr (frame_of_closes [101; 102; 103]))
            (mkDataManager "2022-06-30" "2025-06-29") "^VIX"
  = inr (Some 50) /\
  scale_with_history [Some 1; Some 2] (Some 3) = Some 50 /\
  calculate_on (frame_of_closes rising_series) = inr (Some 50) /\
  scale_with_history (map Some constant_history) (Some 7) = Some 50.
Proof.
  destruct neutral_score_degradation
    as (Hseries & Hshort & Hhistory & Hdegenerate).
  split; [| split; [| split]].
  - apply Hseries. intros df Hdf. injection Hdf as <-. simpl. lia.
  - apply Hshort. simpl. lia.
  - apply Hhistory. unfold rising_series. simpl. lia.
  - apply (Hdegenerate _ _ 0).
    + rewrite np_std_finite by discriminate.
      rewrite constant_history_std. reflexivity.
    + lra.
Defined.

(** The history sample of that series is the single volatility of the
    window that ends one day earlier. *)
Lemma zero_close_history :
  exists v, dropna (rolling_volatility zero_close_series) = [Some v].
Proof.
  unfold rolling_volatility, rolling_std, zero_close_series.
  cbn [pct_change pct_from length seq map].
  rewrite !fdiv_finite by lra. rewrite fdiv_zero.
  unfold window_at, window_std, nan.
  cbn [firstn skipn Nat.sub length Nat.ltb Nat.leb all_finite fold_right
       fsub lift2 fmul dropna filter is_finite].
  eexists. reflexivity.
Qed.




(** ** Aggregation *)

Lemma weight_array_finite (W : list (string * R)) :
  weight_array W = map Some (weight_vector W).
Proof. unfold weight_array, weight_vector. rewrite map_map. reflexivity. Qed.

Lemma zip_mul_finite (a w : list R) :
  zip_mul (map Some a) (map Some w)
  = map Some (map (fun p => fst p * snd p) (combine a w)).
Proof.
  revert w. induction a as [| x a IH]; intros [| y w]; simpl;
    try reflexivity.
  rewrite IH. reflexivity.
Qed.

Lemma rsum_combine (a w : list R) :
  rsum (map (fun p => fst p * snd p) (combine a w)) = rdot a w.
Proof.
  revert w. induction a as [| x a IH]; intros [| y w]; simpl;
    try reflexivity.
  rewrite IH. reflexivity.
Qed.

Lemma np_average_finite (a w : list R) :
  length a = length w -> rsum w <> 0 ->
  np_average (map Some a) (map Some w) = inr (Some (weighted_average a w)).
Proof.
  intros Hlen Hw. unfold np_average.
  rewrite !length_map, Hlen, Nat.eqb_refl. simpl negb. cbv iota.
  rewrite np_sum_finite. unfold is_zero.
  destruct (Req_dec_T (rsum w) 0) as [H0 | _]; [contradiction |].
  rewrite zip_mul_finite, np_sum_finite, rsum_combine.
  rewrite (fdiv_finite _ _ Hw). reflexivity.
Qed.

Lemma calculate_on_result (df : DataFrame) :
  (exists e, calculate_on df = inl e) \/
  (exists r, calculate_on df = inr (Some r) /\ 0 <= r <= 100).
Proof.
  unfold calculate_on.
  destruct (df_empty df || (index_len df <? 10)%nat).
  { right. exists 50. split; [reflexivity | lra]. }
  destruct (getitem df "Close") as [e | close]; [left; exists e; reflexivity |].
  simpl. destruct (iloc_last (rolling_volatility close)) as [e | cur];
    [left; exists e; reflexivity |].
  simpl. right.
  destruct (scale_with_history_finite (dropna (rolling_volatility close)) cur)
    as (r & Hr & Hb).
  exists r. unfold ret. rewrite Hr. split; [reflexivity | exact Hb].
Qed.

Lemma recorded_score_bounds
  (yf : string -> string -> string -> M DataFrame) (dm : DataManager)
  (ticker : string) :
  exists r, recorded_score yf dm ticker = Some r /\ 0 <= r <= 100.
Proof.
  unfold recorded_score, calculate. rewrite get_history_total. simpl.
  destruct (calculate_on_result
              (match yf ticker (start_date dm) (end_date dm) with
               | inl _ => empty_frame
               | inr df => df
               end)) as [(e & He) | (r & Hr & Hb)].
  - rewrite He. exists 50. split; [reflexivity | lra].
  - rewrite Hr. exists r. split; [reflexivity | exact Hb].
Qed.

(** The loop never raises: it yields one recorded score per indicator. *)
Lemma scores_total
  (yf : string -> string -> string -> M DataFrame) (dm : DataManager)
  (inds : list string) :
  scores yf dm inds = inr (map (recorded_score yf dm) inds).
Proof.
  induction inds as [| t inds IH]; [reflexivity |].
  simpl. rewrite IH. unfold recorded_score, try_except.
  destruct (calculate yf dm t); reflexivity.
Qed.

Lemma recorded_scores_finite
  (yf : string -> string -> string -> M DataFrame) (dm : DataManager)
  (inds : list string) :
  exists rs,
    map (recorded_score yf dm) inds = map Some rs /\
    length rs = length inds /\
    Forall (fun r => 0 <= r <= 100) rs.
Proof.
  induction inds as [| t inds (rs & Hrs & Hlen & Hb)].
  - exists []. repeat split. constructor.
  - destruct (recorded_score_bounds yf dm t) as (r & Hr & Hrb).
    exists (r :: rs). simpl. rewrite Hr, Hrs, Hlen.
    repeat split; try lra. constructor; [exact Hrb | exact Hb].
Qed.

(** [compute_with] in closed form, once the recorded scores are known to
    be the finite values [rs]. *)
Lemma compute_with_on_scores
  (yf : string -> string -> string -> M DataFrame) (W : list (string * R))
  (dm : DataManager) (rs : list R) :
  map (recorded_score yf dm) indicators = map Some rs ->
  compute_with yf W dm
  = inr (Some (clamp100
                 (if Rlt_dec 0 (rsum (weight_vector W))
                  then weighted_average rs (weight_vector W)
                  else mean rs)),
         map Some rs).
Proof.
  intros Hrs.
  assert (Hlen : length rs = length indicators).
  { rewrite <- (length_map Some rs), <- Hrs. apply length_map. }
  unfold compute_with. rewrite scores_total, Hrs. unfold bind at 1.
  rewrite weight_array_finite, np_sum_finite. unfold py_lt.
  destruct (Rlt_dec 0 (rsum (weight_vector W))) as [Hpos | Hnpos].
  - rewrite np_average_finite.
    + unfold bind, ret. rewrite py_clamp_finite. reflexivity.
    + rewrite Hlen. unfold weight_vector. rewrite length_map. reflexivity.
    + lra.
  - rewrite np_mean_finite.
    + unfold bind, ret. rewrite py_clamp_finite. reflexivity.
    + destruct rs; [discriminate Hlen | discriminate].
Qed.

Lemma compute_with_cases
  (yf : string -> string -> string -> M DataFrame) (W : list (string * R))
  (dm : DataManager) :
  exists rs,
    map (recorded_score yf dm) indicators = map Some rs /\
    length rs = length indicators /\
    Forall (fun r => 0 <= r <= 100) rs /\
    compute_with yf W dm
    = inr (Some (clamp100
                   (if Rlt_dec 0 (rsum (weight_vector W))
                    then weighted_average rs (weight_vector W)
                    else mean rs)),
           map Some rs).
Proof.
  destruct (recorded_scores_finite yf dm indicators) as (rs & Hrs & Hlen & Hb).
  exists rs. repeat split; try assumption.
  apply compute_with_on_scores, Hrs.
Qed.







Lemma rsum_nonneg (w : list R) : Forall (fun y => 0 <= y) w -> 0 <= rsum w.
Proof.
  intros Hw. induction Hw as [| y w Hy _ IH]; simpl; lra.
Qed.

(** A sum weighted by non-negative weights stays between the bounds of its
    terms, scaled by the total weight. *)
Lemma rdot_bounds (lo hi : R) :
  forall a w : list R,
    length a = length w ->
    Forall (fun r => lo <= r <= hi) a ->
    Forall (fun y => 0 <= y) w ->
    lo * rsum w <= rdot a w <= hi * rsum w.
Proof.
  induction a as [| x a IH]; intros [| y w] Hlen Ha Hw; simpl in *;
    try discriminate; try lra.
  inversion Ha as [| ? ? Hx Ha']; subst.
  inversion Hw as [| ? ? Hy Hw']; subst.
  destruct (IH w) as [IHlo IHhi]; [lia | assumption | assumption |].
  split; nra.
Qed.

Lemma weighted_average_bounds (lo hi : R) (a w : list R) :
  length a = length w ->
  Forall (fun r => lo <= r <= hi) a ->
  Forall (fun y => 0 <= y) w ->
  0 < rsum w ->
  lo <= weighted_average a w <= hi.
Proof.
  intros Hlen Ha Hw Hpos.
  destruct (rdot_bounds lo hi a w Hlen Ha Hw) as [Hlo Hhi].
  unfold weighted_average. split.
  - apply Rmult_le_reg_r with (rsum w); [exact Hpos |].
    unfold Rdiv. rewrite Rmult_assoc, Rinv_l by lra. lra.
  - apply Rmult_le_reg_r with (rsum w); [exact Hpos |].
    unfold Rdiv. rewrite Rmult_assoc, Rinv_l by lra. lra.
Qed.



Lemma assoc_In {A : Type} (k : string) (l : list (string * A)) (v : A) :
  assoc k l = Some v -> In (k, v) l.
Proof.
  induction l as [| [k' v'] l IH]; simpl; [discriminate |].
  destruct (String.eqb_spec k k') as [-> | _].
  - intros [= ->]. left. reflexivity.
  - intros H. right. apply IH, H.
Qed.

Lemma weight_vector_nonneg (W : list (string * R)) :
  Forall (fun kv => 0 <= snd kv) W ->
  Forall (fun y => 0 <= y) (weight_vector W).
Proof.
  intros HW. unfold weight_vector. apply Forall_map, Forall_forall.
  intros t _. unfold dict_get.
  destruct (assoc t W) as [v |] eqn:Hv; [| lra].
  apply assoc_In in Hv. rewrite Forall_forall in HW.
  exact (HW _ Hv).
Qed.

Lemma weight_vector_length (W : list (string * R)) :
  length (weight_vector W) = length indicators.
Proof. unfold weight_vector. apply length_map. Qed.



Lemma WEIGHTS_nonneg : Forall (fun kv => 0 <= snd kv) WEIGHTS.
Proof. unfold WEIGHTS. repeat constructor; simpl; lra. Qed.



(** Evaluates the dictionary look-ups of a concrete weight table. *)
Ltac eval_weights :=
  unfold weight_vector, indicators, zero_weights, WEIGHTS, TICKERS, dict_get;
  cbn [map fst snd assoc String.eqb Ascii.eqb Bool.eqb andb rsum fold_right].

Lemma zero_weights_total : rsum (weight_vector zero_weights) = 0.
Proof. eval_weights. lra. Qed.


(** ** Claim C6: no failure reaches the caller.  [get_history] never raises
    and answers a provider error with the empty frame; [compute] never
    raises, records 50.0 for each indicator whose [calculate] raised and the
    computed score for every other one, and returns a finite composite. *)
Theorem failures_never_surface
  (yf : string -> string -> string -> M DataFrame) (W : list (string * R))
  (dm : DataManager) :
  (forall ticker,
      exists df,
        get_history yf dm ticker = inr df /\
        (forall e, yf ticker (start_date dm) (end_date dm) = inl e ->
                   df = empty_frame)) /\
  (exists composite,
      compute_with yf W dm
      = inr (Some composite,
             map (fun ticker =>
                    match calculate yf dm ticker with
                    | inl _ => Some 50
                    | inr score => score
                    end)
                 indicators)).
Proof.
  split.
  - intros ticker. eexists. split; [apply get_history_total |].
    intros e He. rewrite He. reflexivity.
  - destruct (compute_with_cases yf W dm) as (rs & Hrs & _ & _ & Hc).
    eexists. rewrite Hc, <- Hrs. reflexivity.
Qed.

Lemma broken_provider_raises :
  calculate broken_provider sample_manager "^VIX" = inl (KeyError "Close").
Proof. reflexivity. Qed.

Lemma failures_never_surface_witness :
  calculate broken_provider sample_manager "^VIX" = inl (KeyError "Close") /\
  get_history broken_provider sample_manager "^GVZ" = inr empty_frame /\
  exists composite,
    compute_with broken_provider WEIGHTS sample_manager
    = inr (Some composite, repeat (Some 50) 8).
Proof.
  destruct (failures_never_surface broken_provider WEIGHTS sample_manager)
    as [Hfetch (composite & Hcompute)].
  split; [reflexivity |]. split.
  - destruct (Hfetch "^GVZ"%string) as (df & Hdf & Hempty).
    rewrite Hdf. f_equal. apply (Hempty (ProviderError "connection refused")).
    reflexivity.
  - exists composite. rewrite Hcompute. reflexivity.
Defined.

Lemma rdot_repeat (c : R) (w : list R) :
  rdot (repeat c (length w)) w = c * rsum w.
Proof.
  induction w as [| y w IH]; simpl; [ring | rewrite IH; ring].
Qed.

(** ** Claim C7: when every fetch fails or comes back empty, every score is
    exactly 50.0 and so is the composite, whatever the weight table. *)
Theorem all_fetches_fail_neutral
  (yf : string -> string -> string -> M DataFrame) (W : list (string * R))
  (dm : DataManager) :
  (forall ticker df,
      In ticker indicators ->
      yf ticker (start_date dm) (end_date dm) = inr df ->
      df_empty df = true) ->
  compute_with yf W dm = inr (Some 50, repeat (Some 50) 8).
Proof.
  intros Hfail.
  assert (Hrs : map (recorded_score yf dm) indicators
                = map Some (repeat 50 8)).
  { change (map Some (repeat 50 8))
      with (map (fun _ : string => Some 50) indicators).
    apply map_ext_in. intros t Ht.
    unfold recorded_score, calculate. rewrite get_history_total. simpl.
    rewrite calculate_on_empty; [reflexivity |].
    destruct (yf t (start_date dm) (end_date dm)) as [e | df] eqn:Hy;
      [reflexivity | exact (Hfail t df Ht Hy)]. }
  rewrite (compute_with_on_scores yf W dm _ Hrs).
  f_equal. f_equal. f_equal.
  transitivity (clamp100 50); [f_equal | apply clamp100_id; lra].
  destruct (Rlt_dec 0 (rsum (weight_vector W))) as [Hpos | _].
  - unfold weighted_average.
    change 8%nat with (length (weight_vector W)).
    rewrite rdot_repeat. field. lra.
  - unfold mean. simpl. lra.
Qed.

Lemma all_fetches_fail_neutral_witness :
  (forall ticker df,
      In ticker indicators ->
      failing_provider ticker (start_date sample_manager)
                       (end_date sample_manager) = inr df ->
      df_empty df = true) /\
  compute_with failing_provider WEIGHTS sample_manager
  = inr (Some 50, repeat (Some 50) 8).
Proof.
  assert (Hfail : forall ticker df,
             In ticker indicators ->
             failing_provider ticker (start_date sample_manager)
                              (end_date sample_manager) = inr df ->
             df_empty df = true)
    by (intros ticker df _ Hdf; discriminate Hdf).
  split; [exact Hfail |].
  exact (all_fetches_fail_neutral failing_provider WEIGHTS sample_manager
           Hfail).
Defined.

(** ** Claim C10: the shipped table gives each of the 8 instruments a
    non-negative weight, the weights total exactly 1, so the test
    [weights.sum() > 0] of [compute] succeeds and the composite is always the
    weighted average, never the fallback mean. *)
Theorem shipped_weights_total_one :
  length WEIGHTS = 8%nat /\
  Forall (fun kv => 0 <= snd kv) WEIGHTS /\
  weight_vector WEIGHTS = [0.07; 0.10; 0.10; 0.05; 0.10; 0.10; 0.23; 0.25] /\
  rsum (weight_vector WEIGHTS) = 1 /\
  py_lt (Some 0) (np_sum (weight_array WEIGHTS)) = true /\
  (forall (yf : string -> string -> string -> M DataFrame) dm,
      exists rs,
        compute yf dm
        = inr (Some (weighted_average rs (weight_vector WEIGHTS)),
               map Some rs)).
Proof.
  assert (Hvec : weight_vector WEIGHTS
                 = [0.07; 0.10; 0.10; 0.05; 0.10; 0.10; 0.23; 0.25]).
  { eval_weights. reflexivity. }
  assert (Hsum : rsum (weight_vector WEIGHTS) = 1).
  { rewrite Hvec. simpl. lra. }
  split; [reflexivity |]. split; [apply WEIGHTS_nonneg |].
  split; [exact Hvec |]. split; [exact Hsum |]. split.
  - rewrite weight_array_finite, np_sum_finite, Hsum. unfold py_lt.
    destruct (Rlt_dec 0 1); [reflexivity | lra].
  - intros yf dm. unfold compute.
    destruct (compute_with_cases yf WEIGHTS dm) as (rs & _ & Hlen & Hb & Hc).
    exists rs. rewrite Hc.
    destruct (Rlt_dec 0 (rsum (weight_vector WEIGHTS))) as [Hpos | Hn];
      [| lra].
    rewrite clamp100_id; [reflexivity |].
    apply weighted_average_bounds;
      [rewrite weight_vector_length; exact Hlen | exact Hb
      | apply weight_vector_nonneg, WEIGHTS_nonneg | exact Hpos].
Qed.

(** ** The previous session's end date *)

Local Open Scope Z_scope.

Lemma weekday_range (d : Z) : 0 <= weekday d < 7.
Proof. unfold weekday. apply Z.mod_pos_bound. lia. Qed.

Lemma weekday_shift (d k : Z) : weekday (d - k) = (weekday d - k) mod 7.
Proof.
  unfold weekday. rewrite Zminus_mod_idemp_l. f_equal. lia.
Qed.

Ltac zmod_lia := Z.div_mod_to_equations; lia.

(** The calendar: the epoch is day 0, a Thursday; 2025-06-16 is a Monday
    and 2025-06-21 is five days later. *)
Lemma to_datetime_examples :
  to_datetime 1970 1 1 = 0 /\
  weekday (to_datetime 1970 1 1) = 3 /\
  weekday (to_datetime 2025 6 16) = 0 /\
  to_datetime 2025 6 21 = to_datetime 2025 6 16 + 5.
Proof. repeat split; reflexivity. Qed.

(** [prev_business_day d] is the greatest business day strictly before
    [d]. *)
Lemma prev_business_day_spec (d : Z) :
  is_business_day (prev_business_day d) = true /\
  prev_business_day d < d /\
  (forall d', prev_business_day d < d' < d -> is_business_day d' = false).
Proof.
  unfold prev_business_day, is_business_day.
  pose proof (weekday_range d) as Hd.
  pose proof (weekday_shift d 1) as H1.
  pose proof (weekday_shift d 2) as H2.
  pose proof (weekday_shift d 3) as H3.
  destruct (Z.ltb_spec (weekday (d - 1)) 5) as [Ha | Ha].
  { split; [apply Z.ltb_lt, Ha |]. split; [zmod_lia |]. intros d' Hd'. zmod_lia. }
  destruct (Z.ltb_spec (weekday (d - 2)) 5) as [Hb | Hb].
  { split; [apply Z.ltb_lt, Hb |]. split; [zmod_lia |].
    intros d' Hd'. assert (d' = d - 1) by zmod_lia. subst d'.
    apply Z.ltb_ge, Ha. }
  split; [apply Z.ltb_lt; zmod_lia |]. split; [zmod_lia |].
  intros d' Hd'. assert (d' = d - 1 \/ d' = d - 2) as [-> | ->] by zmod_lia;
    apply Z.ltb_ge; assumption.
Qed.

Lemma last_business_day_eq (d : Z) :
  last_business_day d = inr (bday_sub1 (bday_rollback d)).
Proof. reflexivity. Qed.

(** On a business day the code finds the previous business day. *)
Lemma last_business_day_on_business_day (d : Z) :
  is_business_day d = true ->
  last_business_day d = inr (prev_business_day d).
Proof.
  intros Hb. rewrite last_business_day_eq. f_equal.
  unfold bday_rollback. rewrite Hb.
  unfold bday_sub1, prev_business_day, is_business_day in *.
  apply Z.ltb_lt in Hb.
  pose proof (weekday_range d) as Hd.
  pose proof (weekday_shift d 1) as H1.
  pose proof (weekday_shift d 2) as H2.
  destruct (Z.eqb_spec (weekday d) 0) as [H0 | H0].
  - destruct (Z.ltb_spec (weekday (d - 1)) 5); [zmod_lia |].
    destruct (Z.ltb_spec (weekday (d - 2)) 5); [zmod_lia | reflexivity].
  - destruct (Z.eqb_spec (weekday d) 6); [zmod_lia |].
    destruct (Z.ltb_spec (weekday (d - 1)) 5); [reflexivity | zmod_lia].
Qed.

(** On a Monday the comparison range ends on the preceding Friday. *)
Lemma last_business_day_monday (d : Z) :
  weekday d = 0 ->
  last_business_day d = inr (d - 3) /\ weekday (d - 3) = 4.
Proof.
  intros Hm. rewrite last_business_day_eq.
  unfold bday_rollback, is_business_day. rewrite Hm. simpl.
  unfold bday_sub1. rewrite Hm. simpl.
  split; [reflexivity |]. rewrite weekday_shift, Hm. reflexivity.
Qed.

Lemma last_business_day_monday_example :
  weekday (to_datetime 2025 6 23) = 0 /\
  last_business_day (to_datetime 2025 6 23) = inr (to_datetime 2025 6 20).
Proof. split; reflexivity. Qed.

(** On a Saturday or a Sunday the end is first rolled back to Friday and
    the business day before that Friday is returned: a Thursday, although
    the Friday itself lies strictly before the date. *)
Lemma last_business_day_weekend (d : Z) :
  is_business_day d = false ->
  exists thursday,
    last_business_day d = inr thursday /\
    weekday thursday = 3 /\
    prev_business_day d = thursday + 1.
Proof.
  intros Hw. rewrite last_business_day_eq.
  unfold bday_rollback. rewrite Hw.
  unfold is_business_day in Hw. apply Z.ltb_ge in Hw.
  pose proof (weekday_range d) as Hd.
  pose proof (weekday_shift d 1) as H1.
  pose proof (weekday_shift d 2) as H2.
  pose proof (weekday_shift d (weekday d - 4)) as H4.
  replace ((weekday d - (weekday d - 4)) mod 7) with 4 in H4
    by (replace (weekday d - (weekday d - 4)) with 4 by zmod_lia; reflexivity).
  unfold bday_sub1. rewrite H4. simpl.
  exists (d - (weekday d - 4) - 1). split; [reflexivity |].
  split.
  - rewrite weekday_shift, H4. reflexivity.
  - unfold prev_business_day, is_business_day.
    assert (weekday d = 5 \/ weekday d = 6) as [H5 | H6] by zmod_lia.
    + rewrite H5 in *. 
      destruct (Z.ltb_spec (weekday (d - 1)) 5) as [_ | Hge]; [zmod_lia |].
      rewrite H1 in Hge. simpl in Hge. zmod_lia.
    + rewrite H6 in *.
      destruct (Z.ltb_spec (weekday (d - 1)) 5) as [Hlt | _].
      { rewrite H1 in Hlt. simpl in Hlt. zmod_lia. }
      destruct (Z.ltb_spec (weekday (d - 2)) 5) as [_ | Hge]; [zmod_lia |].
      rewrite H2 in Hge. simpl in Hge. zmod_lia.
Qed.

(** ** Claim C5 at a Saturday reference date: for 2025-06-21 the code ends
    the comparison range on Thursday 2025-06-19, while the last business day
    strictly before the date is Friday 2025-06-20. *)
Theorem last_business_day_saturday :
  weekday (to_datetime 2025 6 21) = 5 /\
  last_business_day (to_datetime 2025 6 21) = inr (to_datetime 2025 6 19) /\
  comparison_range (to_datetime 2025 6 21)
  = inr (to_datetime 2025 6 19 - 1095, to_datetime 2025 6 19) /\
  prev_business_day (to_datetime 2025 6 21) = to_datetime 2025 6 20 /\
  to_datetime 2025 6 19 <> to_datetime 2025 6 20.
Proof. repeat split; try reflexivity. discriminate. Qed.

Local Close Scope Z_scope.

(** ** The shipped weights in binary64 *)

(** In double precision too the shipped weights total exactly 1.0, in
    either summation order. *)
Lemma binary64_weights_total :
  Binary64.sum_sequential Binary64.weights = PrimFloat.one /\
  Binary64.sum_pairwise Binary64.weights = PrimFloat.one /\
  PrimFloat.ltb PrimFloat.zero (Binary64.sum_pairwise Binary64.weights) = true.
Proof. repeat split; reflexivity. Qed.

(** And the weighted average of eight scores of 50.0 is exactly 50.0. *)
Lemma binary64_neutral_composite :
  Binary64.neutral_average Binary64.sum_sequential = Binary64.neutral /\
  Binary64.neutral_average Binary64.sum_pairwise = Binary64.neutral.
Proof. split; reflexivity. Qed.

(** * Further properties of the code *)

(** ** Scores are finite and bounded *)

(** Whatever the array and the reading, [nan] included, the score is a
    finite number of [[0, 100]]; and whatever the provider and the weight
    table, negative weights included, [compute] returns eight such scores
    and a composite of [[0, 100]]. *)
Theorem scores_finite_and_bounded :
  (forall values current,
      exists r, scale_with_history values current = Some r /\ 0 <= r <= 100) /\
  (forall (yf : string -> string -> string -> M DataFrame) W dm,
      exists c rs,
        compute_with yf W dm = inr (Some c, map Some rs) /\
        0 <= c <= 100 /\
        length rs = 8%nat /\
        Forall (fun r => 0 <= r <= 100) rs).
Proof.
  split; [apply scale_with_history_finite |].
  intros yf W dm.
  destruct (compute_with_cases yf W dm) as (rs & _ & Hlen & Hb & Hc).
  eexists. exists rs. split; [exact Hc |].
  split; [apply clamp100_bounds |]. split; [exact Hlen | exact Hb].
Qed.

(** ** A [nan] reading *)

Lemma scale_with_history_nan (values : list pyfloat) (current : pyfloat) :
  (10 <= length values)%nat ->
  py_lt (np_std values) (Some 1e-8) = false ->
  current = nan \/ np_std values = nan ->
  scale_with_history values current = Some 100.
Proof.
  intros Hlen Hstd Hnan. rewrite scale_with_history_cases.
  destruct (Nat.ltb_spec (length values) 10) as [Hlt | _]; [lia |].
  destruct (np_std values) as [s |] eqn:Hs; [| reflexivity].
  unfold py_lt in Hstd.
  destruct (Rlt_dec s 1e-8); [discriminate |].
  destruct Hnan as [-> | Hn]; [| discriminate Hn].
  destruct (np_mean values); reflexivity.
Qed.



(** ** The reading against the mean *)




(** ** The shape of the rolling volatility series *)

Lemma In_firstn {A : Type} (n : nat) (l : list A) (a : A) :
  In a (firstn n l) -> In a l.
Proof.
  intros Hin. rewrite <- (firstn_skipn n l). apply in_or_app. left. exact Hin.
Qed.

Lemma In_skipn {A : Type} (n : nat) (l : list A) (a : A) :
  In a (skipn n l) -> In a l.
Proof.
  intros Hin. rewrite <- (firstn_skipn n l). apply in_or_app. right. exact Hin.
Qed.

(** [calculate] on the frame of a price series. *)
Lemma calculate_on_closes (close : list R) :
  calculate_on (frame_of_closes close)
  = if (length close <? 10)%nat then inr (Some 50)
    else
      match iloc_last (rolling_volatility close) with
      | inl e => inl e
      | inr current_vol =>
          inr (scale_with_history (dropna (rolling_volatility close))
                                  current_vol)
      end.
Proof.
  unfold calculate_on, frame_of_closes, df_empty, getitem.
  cbn [index_len columns].
  destruct (Nat.ltb_spec (length close) 10) as [Hlt | Hge].
  - rewrite orb_true_r. reflexivity.
  - destruct (Nat.eqb_spec (length close) 0) as [H0 | _]; [lia |].
    reflexivity.
Qed.

Lemma rolling_volatility_length (close : list R) :
  length (rolling_volatility close) = length close.
Proof.
  unfold rolling_volatility, rolling_std.
  rewrite !length_map, length_seq. apply pct_change_length.
Qed.


(** From position 10 on, a window holds the ten latest returns. *)
Lemma window_at_finite (rs : list R) (i : nat) :
  (10 <= i <= length rs)%nat ->
  window_std 10 (window_at 10 (nan :: map Some rs) i)
  = Some (sample_std (firstn 10 (skipn (i - 10) rs))).
Proof.
  intros Hi. unfold window_at.
  replace (S i - 10)%nat with (S (i - 10)) by lia.
  rewrite firstn_cons, skipn_cons, skipn_firstn_comm.
  replace (i - (i - 10))%nat with 10%nat by lia.
  rewrite skipn_map, firstn_map.
  apply window_std_finite.
  rewrite length_firstn, length_skipn. lia.
Qed.

(** The rolling volatility of a series in terms of its finite returns: ten
    undefined entries, then one finite value per window. *)
Lemma rolling_volatility_shape (close : list R) (rs : list R) :
  pct_change close = nan :: map Some rs ->
  (10 <= length close)%nat ->
  rolling_volatility close
  = repeat nan 10
    ++ map Some
         (map (fun i => sample_std (firstn 10 (skipn (i - 10) rs)) * 100)
              (seq 10 (length close - 10))).
Proof.
  intros Hpct Hlen.
  assert (Hrs : S (length rs) = length close).
  { rewrite <- (pct_change_length close), Hpct. simpl. rewrite length_map.
    reflexivity. }
  unfold rolling_volatility, rolling_std.
  rewrite pct_change_length.
  replace (length close) with (10 + (length close - 10))%nat at 1 by lia.
  rewrite seq_app, !map_app. f_equal.
  - change (repeat nan 10) with (map (fun _ : nat => nan) (seq 0 10)).
    rewrite map_map. apply map_ext_in. intros i Hi. apply in_seq in Hi.
    rewrite early_window_nan by lia. reflexivity.
  - rewrite !map_map. apply map_ext_in. intros i Hi. apply in_seq in Hi.
    rewrite Hpct, window_at_finite by lia. reflexivity.
Qed.

Lemma dropna_repeat_nan (n : nat) (l : list R) :
  dropna (repeat nan n ++ map Some l) = map Some l.
Proof.
  rewrite dropna_app. unfold dropna at 1.
  rewrite filter_none.
  - simpl. unfold dropna. induction l as [| a l IH]; [reflexivity |].
    simpl. rewrite IH. reflexivity.
  - intros y Hy. apply repeat_spec in Hy. subst y. reflexivity.
Qed.


Lemma rising_series_nonzero : Forall (fun p => p <> 0) rising_series.
Proof. unfold rising_series. repeat constructor; lra. Qed.


(** ** Independence of the price unit *)





(** ** A market that moves at a constant rate *)

Lemma geometric_length (p g : R) (n : nat) : length (geometric p g n) = n.
Proof.
  revert p. induction n as [| n IH]; intros p; simpl;
    [reflexivity | rewrite IH; reflexivity].
Qed.

Lemma pct_from_geometric (g : R) (n : nat) :
  g <> 0 ->
  forall prev, prev <> 0 ->
    pct_from prev (geometric (g * prev) g n) = map Some (repeat (g - 1) n).
Proof.
  intros Hg. induction n as [| n IH]; intros prev Hp; [reflexivity |].
  cbn [geometric pct_from repeat map].
  rewrite IH by (apply Rmult_integral_contrapositive; split; assumption).
  rewrite (fdiv_finite _ _ Hp). cbn [fsub lift2].
  f_equal. f_equal. field. exact Hp.
Qed.

Lemma rsum_constant (r : R) (l : list R) :
  Forall (eq r) l -> rsum l = r * INR (length l).
Proof.
  intros Hl. induction Hl as [| a l Ha _ IH].
  - simpl. ring.
  - change (length (a :: l)) with (S (length l)). rewrite S_INR.
    simpl. rewrite IH, <- Ha. ring.
Qed.

Lemma sq_dev_constant (r : R) (l : list R) :
  Forall (eq r) l -> l <> [] -> sq_dev l = 0.
Proof.
  intros Hl Hne.
  assert (Hm : mean l = r).
  { unfold mean. rewrite (rsum_constant r l Hl). field.
    pose proof (INR_length_pos l Hne). lra. }
  unfold sq_dev. rewrite Hm.
  clear Hm Hne. induction Hl as [| a l Ha _ IH]; [reflexivity |].
  simpl. rewrite IH, <- Ha. ring.
Qed.

Lemma sample_std_constant (r : R) (l : list R) :
  Forall (eq r) l -> l <> [] -> sample_std l = 0.
Proof.
  intros Hl Hne. unfold sample_std. rewrite (sq_dev_constant r l Hl Hne).
  unfold Rdiv. rewrite Rmult_0_l. apply sqrt_0.
Qed.

Lemma pop_std_constant (r : R) (l : list R) :
  Forall (eq r) l -> l <> [] -> pop_std l = 0.
Proof.
  intros Hl Hne. unfold pop_std. rewrite (sq_dev_constant r l Hl Hne).
  unfold Rdiv. rewrite Rmult_0_l. apply sqrt_0.
Qed.

(** A price series that grows (or falls) by the same non-zero factor every
    day has constant returns, hence a rolling volatility that is zero
    throughout, and is scored 50 whatever its length. *)
Theorem constant_growth_scores_neutral (p g : R) (n : nat) :
  p <> 0 -> g <> 0 ->
  calculate_on (frame_of_closes (geometric p g n)) = inr (Some 50).
Proof.
  intros Hp Hg. rewrite calculate_on_closes, geometric_length.
  destruct (Nat.ltb_spec n 10) as [Hlt | Hge]; [reflexivity |].
  destruct n as [| m]; [lia |].
  assert (Hpct : pct_change (geometric p g (S m))
                 = nan :: map Some (repeat (g - 1) m)).
  { cbn [geometric pct_change]. rewrite (pct_from_geometric g m Hg p Hp).
    reflexivity. }
  assert (Hlen : (10 <= length (geometric p g (S m)))%nat)
    by (rewrite geometric_length; exact Hge).
  rewrite (rolling_volatility_shape _ _ Hpct Hlen), geometric_length.
  rewrite dropna_repeat_nan.
  set (vs := map _ (seq 10 (S m - 10))).
  assert (Hvs : Forall (eq 0) vs).
  { apply Forall_forall. intros v Hv. apply in_map_iff in Hv.
    destruct Hv as (i & <- & Hi). apply in_seq in Hi.
    rewrite (sample_std_constant (g - 1)); [ring | |].
    - apply Forall_forall. intros a Ha.
      apply In_firstn, In_skipn, repeat_spec in Ha. symmetry. exact Ha.
    - intros He. apply (f_equal (@length R)) in He.
      rewrite length_firstn, length_skipn, repeat_length in He.
      cbn [length] in He. lia. }
  assert (Hscore : forall cur, scale_with_history (map Some vs) cur = Some 50).
  { intros cur. destruct (Nat.lt_ge_cases (length vs) 10) as [Hs | Hs].
    - apply scale_with_history_short. rewrite length_map. exact Hs.
    - assert (Hne : vs <> []) by (destruct vs; [simpl in Hs; lia | discriminate]).
      apply (scale_with_history_degenerate _ _ 0); [| lra].
      rewrite (np_std_finite vs Hne), (pop_std_constant 0 vs Hvs Hne).
      reflexivity. }
  unfold iloc_last.
  destruct (repeat nan 10 ++ map Some vs) eqn:Happ; [discriminate Happ |].
  cbn [ret]. rewrite Hscore. reflexivity.
Qed.

Lemma constant_growth_scores_neutral_witness :
  100 <> 0 /\ 1.01 <> 0 /\
  calculate_on (frame_of_closes (geometric 100 1.01 250)) = inr (Some 50).
Proof.
  assert (Hp : 100 <> 0) by lra.
  assert (Hg : 1.01 <> 0) by lra.
  split; [exact Hp |]. split; [exact Hg |].
  exact (constant_growth_scores_neutral 100 1.01 250 Hp Hg).
Defined.

(** ** What [calculate] can raise *)

(** [calculate] raises [KeyError] exactly when the frame is not empty, has
    at least 10 rows and has no [Close] column; the only other exception of
    the model, [IndexError], needs a [Close] column without any value. *)
Theorem calculate_raises (df : DataFrame) :
  (calculate_on df = inl (KeyError "Close") <->
   df_empty df = false /\ (10 <= index_len df)%nat /\
   assoc "Close"%string (columns df) = None) /\
  (forall e,
      calculate_on df = inl e ->
      e = KeyError "Close" \/
      (e = IndexError /\ assoc "Close"%string (columns df) = Some [])).
Proof.
  unfold calculate_on, getitem.
  destruct (df_empty df) eqn:Hempty; cbn [orb].
  { split; [split; [discriminate | intros (H & _); discriminate H] |].
    intros e He. discriminate He. }
  destruct (Nat.ltb_spec (index_len df) 10) as [Hlt | Hge].
  { split; [split; [discriminate | intros (_ & H & _); lia] |].
    intros e He. discriminate He. }
  destruct (assoc "Close"%string (columns df)) as [close |] eqn:Hclose.
  - cbn [bind ret].
    destruct close as [| p0 t].
    + cbn. split; [split; [discriminate | intros (_ & _ & H); discriminate H] |].
      intros e [= <-]. right. split; reflexivity.
    + assert (Hlast : exists v, iloc_last (rolling_volatility (p0 :: t))
                                = inr v).
      { unfold iloc_last.
        destruct (rolling_volatility (p0 :: t)) eqn:Hv; [| eauto].
        apply (f_equal (@length pyfloat)) in Hv.
        rewrite rolling_volatility_length in Hv. discriminate Hv. }
      destruct Hlast as (v & Hv). rewrite Hv.
      split; [split; [discriminate | intros (_ & _ & H); discriminate H] |].
      intros e He. discriminate He.
  - cbn [bind raise].
    split; [split; [intros _; repeat split; assumption | reflexivity] |].
    intros e [= <-]. left. reflexivity.
Qed.

(** ** A latest window that is undefined *)

Lemma calculate_on_undefined_window (close : list R) :
  iloc_last (rolling_volatility close) = inr nan ->
  (10 <= length (dropna (rolling_volatility close)))%nat ->
  py_lt (np_std (dropna (rolling_volatility close))) (Some 1e-8) = false ->
  calculate_on (frame_of_closes close) = inr (Some 100).
Proof.
  intros Hcur Hlen Hstd. rewrite calculate_on_closes, Hcur.
  destruct (Nat.ltb_spec (length close) 10) as [Hlt | _].
  { pose proof (history_sample_length close). lia. }
  f_equal. apply scale_with_history_nan; [exact Hlen | exact Hstd |].
  left. reflexivity.
Qed.

(** When the latest rolling window is undefined while the history sample is
    usable (at least 10 values, deviation not below 1e-8), [calculate]
    returns 100. *)
Theorem undefined_latest_window_scores_100 (close : list R) :
  iloc_last (rolling_volatility close) = inr nan ->
  (10 <= length (dropna (rolling_volatility close)))%nat ->
  py_lt (np_std (dropna (rolling_volatility close))) (Some 1e-8) = false ->
  calculate_on (frame_of_closes close) = inr (Some 100).
Proof. exact (calculate_on_undefined_window close). Qed.

(** The rolling volatility of [spike_series]: zero while the closes are
    flat, then the volatility of the window that holds the fall to zero,
    then undefined because the last return divides by zero. *)
Lemma spike_volatility :
  rolling_volatility spike_series
  = repeat nan 10 ++ repeat (Some 0) 9 ++ [Some (100 * sqrt (1 / 10)); nan].
Proof.
  unfold rolling_volatility, rolling_std, spike_series.
  cbn [repeat app pct_change pct_from length seq map].
  rewrite !fdiv_finite by lra. rewrite fdiv_zero.
  unfold window_at, window_std, nan.
  cbn [firstn skipn Nat.sub length Nat.ltb Nat.leb all_finite fold_right
       fsub lift2 fmul repeat app].
  assert (Hflat : sample_std [1 / 1 - 1; 1 / 1 - 1; 1 / 1 - 1; 1 / 1 - 1;
                              1 / 1 - 1; 1 / 1 - 1; 1 / 1 - 1; 1 / 1 - 1;
                              1 / 1 - 1; 1 / 1 - 1] * 100 = 0).
  { rewrite (sample_std_constant 0); [ring | | discriminate].
    repeat constructor; lra. }
  assert (Hfall : sample_std [1 / 1 - 1; 1 / 1 - 1; 1 / 1 - 1; 1 / 1 - 1;
                              1 / 1 - 1; 1 / 1 - 1; 1 / 1 - 1; 1 / 1 - 1;
                              1 / 1 - 1; 0 / 1 - 1] * 100
                  = 100 * sqrt (1 / 10)).
  { rewrite Rmult_comm. f_equal. unfold sample_std. f_equal.
    unfold sq_dev, mean. simpl. field. }
  rewrite Hflat, Hfall. reflexivity.
Qed.

Lemma spike_history_std :
  np_std (repeat (Some 0) 9 ++ [Some (100 * sqrt (1 / 10))]) = Some (sqrt 90).
Proof.
  set (a := 100 * sqrt (1 / 10)).
  assert (Ha : a * a = 1000).
  { unfold a.
    replace (100 * sqrt (1 / 10) * (100 * sqrt (1 / 10)))
      with (10000 * (sqrt (1 / 10) * sqrt (1 / 10))) by ring.
    rewrite sqrt_sqrt by lra. lra. }
  change (repeat (Some 0) 9 ++ [Some a])
    with (map Some [0; 0; 0; 0; 0; 0; 0; 0; 0; a]).
  rewrite np_std_finite by discriminate.
  f_equal. unfold pop_std. f_equal.
  unfold sq_dev, mean. simpl.
  replace 90 with (9 / 100 * (a * a)) by (rewrite Ha; lra).
  field.
Qed.

Lemma spike_series_facts :
  iloc_last (rolling_volatility spike_series) = inr nan /\
  (10 <= length (dropna (rolling_volatility spike_series)))%nat /\
  py_lt (np_std (dropna (rolling_volatility spike_series))) (Some 1e-8)
  = false.
Proof.
  assert (Hcur : iloc_last (rolling_volatility spike_series) = inr nan)
    by (rewrite spike_volatility; reflexivity).
  assert (Hdrop : dropna (rolling_volatility spike_series)
                  = repeat (Some 0) 9 ++ [Some (100 * sqrt (1 / 10))])
    by (rewrite spike_volatility; reflexivity).
  assert (Hlen : (10 <= length (dropna (rolling_volatility spike_series)))%nat)
    by (rewrite Hdrop; simpl; lia).
  assert (Hstd : py_lt (np_std (dropna (rolling_volatility spike_series)))
                       (Some 1e-8) = false).
  { rewrite Hdrop, spike_history_std. unfold py_lt.
    destruct (Rlt_dec (sqrt 90) 1e-8) as [Hlt | _]; [| reflexivity].
    assert (1 <= sqrt 90)
      by (rewrite <- sqrt_1 at 1; apply sqrt_le_1_alt; lra).
    lra. }
  split; [exact Hcur |]. split; [exact Hlen | exact Hstd].
Qed.

Lemma undefined_latest_window_scores_100_witness :
  iloc_last (rolling_volatility spike_series) = inr nan /\
  (10 <= length (dropna (rolling_volatility spike_series)))%nat /\
  py_lt (np_std (dropna (rolling_volatility spike_series))) (Some 1e-8)
  = false /\
  calculate_on (frame_of_closes spike_series) = inr (Some 100).
Proof.
  destruct spike_series_facts as (Hcur & Hlen & Hstd).
  split; [exact Hcur |]. split; [exact Hlen |]. split; [exact Hstd |].
  exact (undefined_latest_window_scores_100 spike_series Hcur Hlen Hstd).
Defined.

(** ** Weights *)

Lemma indicators_NoDup : NoDup indicators.
Proof.
  unfold indicators, TICKERS. cbn [map fst].
  repeat constructor; simpl; intuition discriminate.
Qed.

Lemma shipped_weight_total : rsum (weight_vector WEIGHTS) = 1.
Proof. eval_weights. lra. Qed.









(** ** One instrument away from neutral *)

Lemma rdot_single (w : string -> R) (ticker : string) (v : R) :
  forall inds : list string,
    NoDup inds ->
    rdot (map (fun t => if String.eqb t ticker then v else 50) inds)
         (map w inds)
    = 50 * rsum (map w inds)
      + (if in_dec string_dec ticker inds then (v - 50) * w ticker else 0).
Proof.
  induction inds as [| t inds IH]; intros Hnd.
  - simpl. ring.
  - inversion Hnd as [| ? ? Hnotin Hnd']; subst.
    cbn [map rdot rsum fold_right]. fold (rsum (map w inds)).
    rewrite (IH Hnd').
    destruct (String.eqb_spec t ticker) as [-> | Hneq].
    + destruct (in_dec string_dec ticker inds) as [Hin | _]; [contradiction |].
      destruct (in_dec string_dec ticker (ticker :: inds)) as [_ | Hn];
        [ring | exfalso; apply Hn; left; reflexivity].
    + destruct (in_dec string_dec ticker inds) as [Hin | Hnin];
        destruct (in_dec string_dec ticker (t :: inds)) as [Hin' | Hnin'];
        try ring.
      * exfalso. apply Hnin'. right. exact Hin.
      * exfalso. destruct Hin' as [Heq | Hin']; [exact (Hneq Heq) | exact (Hnin Hin')].
Qed.

(** Under the shipped weights, when one instrument scores [v] and every
    other one scores 50, the composite is 50 plus that instrument's weight
    times [v - 50]. *)
Theorem single_mover
  (yf : string -> string -> string -> M DataFrame) (dm : DataManager)
  (ticker : string) (v : R) :
  In ticker indicators ->
  recorded_score yf dm ticker = Some v ->
  (forall t, In t indicators -> t <> ticker ->
             recorded_score yf dm t = Some 50) ->
  exists rs,
    compute yf dm
    = inr (Some (50 + dict_get WEIGHTS ticker 0 * (v - 50)), map Some rs).
Proof.
  intros Hin Hv Hothers.
  set (rs := map (fun t => if String.eqb t ticker then v else 50) indicators).
  assert (Hrs : map (recorded_score yf dm) indicators = map Some rs).
  { unfold rs. rewrite map_map. apply map_ext_in. intros t Ht.
    destruct (String.eqb_spec t ticker) as [-> | Hneq];
      [exact Hv | exact (Hothers t Ht Hneq)]. }
  assert (Hvb : 0 <= v <= 100).
  { destruct (recorded_score_bounds yf dm ticker) as (r & Hr & Hb).
    rewrite Hv in Hr. injection Hr as ->. exact Hb. }
  exists rs. unfold compute.
  rewrite (compute_with_on_scores yf WEIGHTS dm rs Hrs).
  destruct (Rlt_dec 0 (rsum (weight_vector WEIGHTS))) as [_ | Hn];
    [| rewrite shipped_weight_total in Hn; lra].
  assert (Havg : weighted_average rs (weight_vector WEIGHTS)
                 = 50 + dict_get WEIGHTS ticker 0 * (v - 50)).
  { unfold weighted_average. rewrite shipped_weight_total.
    unfold rs, weight_vector.
    rewrite (rdot_single (fun t => dict_get WEIGHTS t 0) ticker v indicators
               indicators_NoDup).
    fold (weight_vector WEIGHTS). rewrite shipped_weight_total.
    destruct (in_dec string_dec ticker indicators) as [_ | Hn];
      [field | contradiction]. }
  rewrite Havg. rewrite clamp100_id; [reflexivity |].
  rewrite <- Havg. apply weighted_average_bounds.
  - unfold rs. rewrite weight_vector_length, length_map. reflexivity.
  - unfold rs. apply Forall_map, Forall_forall. intros t _.
    destruct (String.eqb t ticker); lra.
  - apply weight_vector_nonneg, WEIGHTS_nonneg.
  - rewrite shipped_weight_total. lra.
Qed.

Lemma spike_provider_vix :
  recorded_score spike_provider sample_manager "^VIX" = Some 100.
Proof.
  unfold recorded_score, calculate. rewrite get_history_total.
  cbn [bind spike_provider String.eqb Ascii.eqb Bool.eqb andb ret].
  destruct spike_series_facts as (Hcur & Hlen & Hstd).
  rewrite (calculate_on_undefined_window spike_series Hcur Hlen Hstd).
  reflexivity.
Qed.

Lemma single_mover_witness :
  In "^VIX"%string indicators /\
  recorded_score spike_provider sample_manager "^VIX" = Some 100 /\
  (forall t, In t indicators -> t <> "^VIX"%string ->
             recorded_score spike_provider sample_manager t = Some 50) /\
  exists rs,
    compute spike_provider sample_manager
    = inr (Some (50 + dict_get WEIGHTS "^VIX" 0 * (100 - 50)), map Some rs).
Proof.
  assert (Hin : In "^VIX"%string indicators)
    by (unfold indicators, TICKERS; simpl; tauto).
  assert (Hothers : forall t, In t indicators -> t <> "^VIX"%string ->
                      recorded_score spike_provider sample_manager t = Some 50).
  { intros t Ht Hneq. unfold indicators, TICKERS in Ht. simpl in Ht.
    repeat (destruct Ht as [<- | Ht]; [first [reflexivity | contradiction] |]).
    contradiction. }
  split; [exact Hin |]. split; [exact spike_provider_vix |].
  split; [exact Hothers |].
  exact (single_mover spike_provider sample_manager "^VIX" 100 Hin
           spike_provider_vix Hothers).
Defined.

(** ** The comparison date and the two date ranges *)

Local Open Scope Z_scope.

Lemma last_business_day_facts (d : Z) :
  exists b,
    last_business_day d = inr b /\
    is_business_day b = true /\
    1 <= d - b <= 3 /\
    (is_business_day d = true -> b = prev_business_day d) /\
    (is_business_day d = false -> b = prev_business_day d - 1).
Proof.
  destruct (is_business_day d) eqn:Hd.
  - pose proof (last_business_day_on_business_day d Hd) as Hl.
    destruct (prev_business_day_spec d) as (Hb & Hlt & _).
    exists (prev_business_day d). split; [exact Hl |]. split; [exact Hb |].
    split; [| split; [reflexivity | discriminate]].
    unfold prev_business_day.
    destruct (is_business_day (d - 1)); [lia |].
    destruct (is_business_day (d - 2)); lia.
  - destruct (last_business_day_weekend d Hd) as (b & Hl & Hthu & Hprev).
    exists b. split; [exact Hl |].
    split; [unfold is_business_day; rewrite Hthu; reflexivity |].
    split; [| split; [discriminate | intros _; lia]].
    assert (Hp : d - 3 <= prev_business_day d < d).
    { unfold prev_business_day.
      destruct (is_business_day (d - 1)); [lia |].
      destruct (is_business_day (d - 2)); lia. }
    unfold prev_business_day in *.
    destruct (is_business_day (d - 1)) eqn:H1; [lia |].
    destruct (is_business_day (d - 2)) eqn:H2; [lia |].
    exfalso.
    unfold is_business_day in *.
    apply Z.ltb_ge in Hd. apply Z.ltb_ge in H1. apply Z.ltb_ge in H2.
    pose proof (weekday_range d). pose proof (weekday_shift d 1).
    pose proof (weekday_shift d 2). zmod_lia.
Qed.

(** [last_business_day] never raises; the date it returns is a business
    day, strictly before the reference date and at most three days before
    it; it is the last business day before the reference date exactly when
    the reference date is itself a business day, and one day earlier than
    that otherwise. *)
Theorem last_business_day_invariants (d : Z) :
  exists b,
    last_business_day d = inr b /\
    is_business_day b = true /\
    1 <= d - b <= 3 /\
    (is_business_day d = true -> b = prev_business_day d) /\
    (is_business_day d = false -> b = prev_business_day d - 1).
Proof. exact (last_business_day_facts d). Qed.

(** The comparison window always spans 1095 days and ends one to three
    days before the requested end.  The requested window spans 1095 days in
    the dashboard and on a command line without dates; with only an end
    date on the command line its start stays 1095 days before yesterday, so
    it is shorter by the distance from that end date to yesterday. *)
Theorem date_ranges (today : Z) (arg_start arg_end : option Z) :
  exists s e ys ye,
    cli_ranges today arg_start arg_end = inr ((s, e), (ys, ye)) /\
    dashboard_ranges e = inr ((e - 1095, e), (ys, ye)) /\
    ye - ys = 1095 /\
    1 <= e - ye <= 3 /\
    (arg_start = None -> arg_end = None ->
     e = today - 1 /\ e - s = 1095) /\
    (arg_start = None -> forall e', arg_end = Some e' ->
     e = e' /\ e - s = 1095 - (today - 1 - e')).
Proof.
  set (e := match arg_end with Some e' => e' | None => today - 1 end).
  destruct (last_business_day_facts e) as (b & Hl & _ & Hd & _).
  exists (match arg_start with Some s => s | None => today - 1 - 365 * 3 end),
         e, (b - 365 * 3), b.
  split.
  { unfold cli_ranges, comparison_range. fold e. rewrite Hl. reflexivity. }
  split.
  { unfold dashboard_ranges, comparison_range. rewrite Hl. reflexivity. }
  split; [lia |]. split; [exact Hd |]. split.
  - intros -> ->. unfold e. lia.
  - intros -> e' ->. unfold e. lia.
Qed.

Local Close Scope Z_scope.

(** ** The radar chart *)

(** [radar_plot] raises [IndexError] on an empty score list; on the scores
    of [compute], whatever the provider and the weights, it closes the
    polygon: nine values and nine labels, the first of each repeated at the
    end. *)
Theorem radar_data_closed :
  radar_data [] = inl IndexError /\
  (forall (yf : string -> string -> string -> M DataFrame) W dm,
      exists c vals v0,
        compute_with yf W dm = inr (c, vals) /\
        hd_error vals = Some v0 /\
        radar_data vals
        = inr (vals ++ [v0], map snd TICKERS ++ ["EUR/USD"%string]) /\
        length (vals ++ [v0]) = 9%nat /\
        length (map snd TICKERS ++ ["EUR/USD"%string]) = 9%nat).
Proof.
  split; [reflexivity |].
  intros yf W dm.
  destruct (compute_with_cases yf W dm) as (rs & _ & Hlen & _ & Hc).
  destruct rs as [| r rs]; [discriminate Hlen |].
  eexists. exists (map Some (r :: rs)), (Some r).
  split; [exact Hc |]. split; [reflexivity |]. split; [reflexivity |].
  split; [| reflexivity].
  rewrite length_app, length_map, Hlen. reflexivity.
Qed.

(** ** The cache around [get_history] *)

Lemma key_eqb_spec (a b : cache_key) : reflect (a = b) (key_eqb a b).
Proof.
  unfold key_eqb. destruct a as [i s], b as [j t]. simpl.
  destruct (Nat.eqb_spec i j) as [-> | Hij];
    destruct (String.eqb_spec s t) as [-> | Hst]; simpl;
    constructor; congruence.
Qed.

Lemma key_eqb_refl (k : cache_key) : key_eqb k k = true.
Proof. destruct (key_eqb_spec k k); [reflexivity | contradiction]. Qed.

Lemma cache_find_None (k : cache_key) (l : list (cache_key * DataFrame)) :
  cache_find k l = None <-> ~ In k (map fst l).
Proof.
  induction l as [| [k' df] l IH]; simpl.
  - tauto.
  - destruct (key_eqb_spec k k') as [-> | Hneq].
    + split; [discriminate | intros H; exfalso; apply H; left; reflexivity].
    + rewrite IH. split.
      * intros H [Heq | Hin]; [congruence | exact (H Hin)].
      * intros H Hin. apply H. right. exact Hin.
Qed.

Lemma cache_remove_keys (k : cache_key) (l : list (cache_key * DataFrame)) :
  forall k', In k' (map fst (cache_remove k l)) <->
             In k' (map fst l) /\ k' <> k.
Proof.
  intros k'. induction l as [| [k1 df] l IH]; simpl.
  - tauto.
  - destruct (key_eqb_spec k k1) as [<- | Hneq].
    + rewrite IH. split; [tauto |]. intros [[Heq | Hin] Hne]; [congruence | tauto].
    + simpl. rewrite IH. split.
      * intros [Heq | [Hin Hne]]; [split; [left; exact Heq | congruence] | tauto].
      * intros [[Heq | Hin] Hne]; [left; exact Heq | right; tauto].
Qed.

Lemma cache_remove_NoDup (k : cache_key) (l : list (cache_key * DataFrame)) :
  NoDup (map fst l) -> NoDup (map fst (cache_remove k l)).
Proof.
  induction l as [| [k1 df] l IH]; simpl; intros Hnd; [constructor |].
  inversion Hnd as [| ? ? Hnotin Hnd']; subst.
  destruct (key_eqb k k1); [exact (IH Hnd') |].
  simpl. constructor; [| exact (IH Hnd')].
  intros Hin. apply cache_remove_keys in Hin. tauto.
Qed.

Lemma cache_remove_length (k : cache_key) (l : list (cache_key * DataFrame)) :
  cache_find k l <> None ->
  (S (length (cache_remove k l)) <= length l)%nat.
Proof.
  induction l as [| [k1 df] l IH]; simpl; intros Hfind; [contradiction |].
  destruct (key_eqb k k1).
  - clear IH Hfind. induction l as [| [k2 df2] l IHl]; simpl; [lia |].
    destruct (key_eqb k k2); simpl; lia.
  - simpl. specialize (IH Hfind). lia.
Qed.

Lemma NoDup_firstn {A : Type} (n : nat) (l : list A) :
  NoDup l -> NoDup (firstn n l).
Proof.
  intros Hnd. rewrite <- (firstn_skipn n l) in Hnd.
  exact (NoDup_app_remove_r _ _ Hnd).
Qed.

(** After a call its key is the most recent entry of the cache. *)
Lemma cached_call_front
  (yf_at : nat -> string -> string -> string -> M DataFrame)
  (self : DataManagerObject) (ticker : string) (st : CacheState) :
  exists df rest calls,
    cached_get_history yf_at self ticker st
    = (inr df, mkCache (((object_id self, ticker), df) :: rest) calls) /\
    (forall e,
        cache_find (object_id self, ticker) (entries st) = None ->
        yf_at (provider_calls st) ticker (start_date (manager self))
              (end_date (manager self)) = inl e ->
        df = empty_frame).
Proof.
  unfold cached_get_history.
  destruct (cache_find (object_id self, ticker) (entries st)) as [df |] eqn:Hf.
  - exists df. do 2 eexists. split; [reflexivity |].
    intros e He. discriminate He.
  - rewrite get_history_total. do 3 eexists. split; [reflexivity |].
    intros e _ He. rewrite He. reflexivity.
Qed.

(** A call whose key is the most recent entry is a hit. *)
Lemma cached_hit_front
  (yf_at : nat -> string -> string -> string -> M DataFrame)
  (self : DataManagerObject) (ticker : string) (df : DataFrame)
  (rest : list (cache_key * DataFrame)) (calls : nat) :
  exists st',
    cached_get_history yf_at self ticker
      (mkCache (((object_id self, ticker), df) :: rest) calls)
    = (inr df, st') /\
    provider_calls st' = calls.
Proof.
  unfold cached_get_history. cbn [entries provider_calls cache_find].
  rewrite key_eqb_refl. eexists. split; reflexivity.
Qed.

(** A call repeated at once is served from the cache: it returns the frame
    of the first call and does not reach the provider, whatever the provider
    would answer by then.  In particular a fetch that failed stays the empty
    frame: it is not tried again. *)
Theorem repeated_call_hits_cache
  (yf_at : nat -> string -> string -> string -> M DataFrame)
  (self : DataManagerObject) (ticker : string) (st : CacheState) :
  exists df,
    fst (cached_get_history yf_at self ticker st) = inr df /\
    fst (cached_get_history yf_at self ticker
           (snd (cached_get_history yf_at self ticker st))) = inr df /\
    provider_calls (snd (cached_get_history yf_at self ticker
                           (snd (cached_get_history yf_at self ticker st))))
    = provider_calls (snd (cached_get_history yf_at self ticker st)) /\
    (forall e,
        cache_find (object_id self, ticker) (entries st) = None ->
        yf_at (provider_calls st) ticker (start_date (manager self))
              (end_date (manager self)) = inl e ->
        df = empty_frame).
Proof.
  destruct (cached_call_front yf_at self ticker st)
    as (df & rest & calls & Hfirst & Hfail).
  destruct (cached_hit_front yf_at self ticker df rest calls)
    as (st' & Hsecond & Hcalls).
  exists df. rewrite Hfirst. cbn [fst snd]. rewrite Hsecond. cbn [fst snd].
  split; [reflexivity |]. split; [reflexivity |].
  split; [exact Hcalls | exact Hfail].
Qed.

Lemma repeated_call_hits_cache_witness :
  recovering_provider 1 "^VIX" "2022-06-30" "2025-06-29"
  = inr (frame_of_closes (repeat 17 12)) /\
  fst (cached_get_history recovering_provider (mkObject 0 sample_manager)
         "^VIX"
         (snd (cached_get_history recovering_provider
                 (mkObject 0 sample_manager) "^VIX" empty_cache)))
  = inr empty_frame.
Proof.
  split; [reflexivity |].
  destruct (repeated_call_hits_cache recovering_provider
              (mkObject 0 sample_manager) "^VIX" empty_cache)
    as (df & _ & Hsecond & _ & Hfail).
  rewrite Hsecond. f_equal.
  apply (Hfail (ProviderError "connection refused")); reflexivity.
Defined.

(** The cache stays well formed: a call leaves at most 32 entries and no
    key twice. *)
Theorem cache_stays_bounded
  (yf_at : nat -> string -> string -> string -> M DataFrame)
  (self : DataManagerObject) (ticker : string) (st : CacheState) :
  cache_ok st ->
  cache_ok (snd (cached_get_history yf_at self ticker st)).
Proof.
  intros [Hlen Hnd]. unfold cached_get_history, cache_ok.
  destruct (cache_find (object_id self, ticker) (entries st)) as [df |] eqn:Hf.
  - cbn [snd entries]. split.
    + cbn [length].
      assert (Hfound : cache_find (object_id self, ticker) (entries st) <> None)
        by (rewrite Hf; discriminate).
      pose proof (cache_remove_length _ _ Hfound). lia.
    + cbn [map fst]. constructor; [| apply cache_remove_NoDup, Hnd].
      intros Hin. apply cache_remove_keys in Hin. tauto.
  - rewrite get_history_total. cbn [snd entries]. split.
    + apply firstn_le_length.
    + rewrite <- firstn_map. apply NoDup_firstn. cbn [map fst].
      constructor; [apply cache_find_None, Hf | exact Hnd].
Qed.

Lemma cache_stays_bounded_witness :
  cache_ok empty_cache /\
  cache_ok (snd (cached_get_history recovering_provider
                   (mkObject 0 sample_manager) "^VIX" empty_cache)).
Proof.
  assert (Hok : cache_ok empty_cache).
  { unfold cache_ok, empty_cache, maxsize. simpl. split; [lia | constructor]. }
  split; [exact Hok |].
  exact (cache_stays_bounded recovering_provider (mkObject 0 sample_manager)
           "^VIX" empty_cache Hok).
Defined.

Lemma scores_at_steady
  (yf : string -> string -> string -> M DataFrame) (dm : DataManager)
  (inds : list string) :
  forall n, scores_at (fun _ => yf) n dm inds = scores yf dm inds.
Proof.
  induction inds as [| t inds IH]; intros n; [reflexivity |].
  simpl. rewrite IH. reflexivity.
Qed.

(** A pass over tickers none of which is cached for this manager: every
    fetch is a miss, so the pass is the uncached loop and reaches the
    provider once per ticker; the keys it adds belong to this manager. *)
Lemma scores_cached_fresh
  (yf_at : nat -> string -> string -> string -> M DataFrame)
  (self : DataManagerObject) :
  forall (inds : list string) (st : CacheState),
    NoDup inds ->
    (forall t, In t inds ->
               cache_find (object_id self, t) (entries st) = None) ->
    exists st',
      scores_cached yf_at self inds st
      = (scores_at yf_at (provider_calls st) (manager self) inds, st') /\
      provider_calls st' = (provider_calls st + length inds)%nat /\
      (forall k, In k (map fst (entries st')) ->
                 In k (map fst (entries st)) \/ fst k = object_id self).
Proof.
  induction inds as [| t rest IH]; intros st Hnd Hfresh.
  - exists st. simpl. split; [reflexivity |]. split; [lia | tauto].
  - inversion Hnd as [| ? ? Hnotin Hnd']; subst.
    cbn [scores_cached scores_at]. unfold cached_get_history.
    rewrite (Hfresh t (or_introl eq_refl)), get_history_total.
    set (df := match yf_at (provider_calls st) t (start_date (manager self))
                       (end_date (manager self)) with
               | inl _ => empty_frame
               | inr df => df
               end).
    set (st1 := mkCache (firstn maxsize (((object_id self, t), df)
                                          :: entries st))
                        (S (provider_calls st))).
    assert (Hkeys1 : forall k, In k (map fst (entries st1)) ->
                               k = (object_id self, t) \/
                               In k (map fst (entries st))).
    { intros k Hin. unfold st1 in Hin. cbn [entries] in Hin.
      rewrite <- firstn_map in Hin. apply In_firstn in Hin.
      destruct Hin as [Heq | Hin]; [left; symmetry; exact Heq | right; exact Hin]. }
    destruct (IH st1 Hnd') as (st' & Hrun & Hcalls & Hkeys).
    { intros t' Ht'. apply cache_find_None. intros Hin.
      destruct (Hkeys1 _ Hin) as [Heq | Hold].
      - injection Heq as ->. contradiction.
      - specialize (Hfresh t' (or_intror Ht')).
        apply cache_find_None in Hfresh. contradiction. }
    exists st'. rewrite Hrun. cbn [provider_calls] in *.
    split; [| split].
    + f_equal. unfold calculate. rewrite get_history_total. reflexivity.
    + unfold st1 in Hcalls. cbn [provider_calls length] in *. lia.
    + intros k Hin. destruct (Hkeys k Hin) as [Hin1 | Hid]; [| right; exact Hid].
      destruct (Hkeys1 k Hin1) as [-> | Hold]; [right; reflexivity | left; exact Hold].
Qed.

(** On a manager none of whose keys is cached, one [compute] reaches the
    provider exactly eight times, once per ticker; and when the provider
    answers the same at every call the result is that of [compute] without
    the cache. *)
Theorem fresh_manager_pass
  (yf_at : nat -> string -> string -> string -> M DataFrame)
  (W : list (string * R)) (self : DataManagerObject) (st : CacheState) :
  (forall t, In t indicators ->
             cache_find (object_id self, t) (entries st) = None) ->
  provider_calls (snd (compute_cached yf_at W self st))
  = (provider_calls st + 8)%nat /\
  (forall yf, yf_at = (fun _ => yf) ->
              fst (compute_cached yf_at W self st)
              = compute_with yf W (manager self)).
Proof.
  intros Hfresh.
  destruct (scores_cached_fresh yf_at self indicators st indicators_NoDup
              Hfresh) as (st' & Hrun & Hcalls & _).
  unfold compute_cached. rewrite Hrun. cbn [fst snd].
  split; [exact Hcalls |].
  intros yf ->. rewrite scores_at_steady. reflexivity.
Qed.

Lemma fresh_manager_pass_witness :
  (forall t, In t indicators ->
             cache_find (object_id (mkObject 0 sample_manager), t)
                        (entries empty_cache) = None) /\
  provider_calls (snd (compute_cached recovering_provider WEIGHTS
                         (mkObject 0 sample_manager) empty_cache))
  = (provider_calls empty_cache + 8)%nat.
Proof.
  assert (Hfresh : forall t, In t indicators ->
             cache_find (object_id (mkObject 0 sample_manager), t)
                        (entries empty_cache) = None)
    by (intros t _; reflexivity).
  split; [exact Hfresh |].
  exact (proj1 (fresh_manager_pass recovering_provider WEIGHTS
                  (mkObject 0 sample_manager) empty_cache Hfresh)).
Defined.

(** The two runs of [main] use two managers, so the sixteen fetches are
    sixteen misses: the cache never serves a hit, and with a provider that
    answers the same at every call the two results are those of the two
    uncached computations. *)
Theorem main_runs_never_hit
  (yf_at : nat -> string -> string -> string -> M DataFrame)
  (dm dm_yesterday : DataManager) :
  provider_calls (snd (main_runs yf_at dm dm_yesterday)) = 16%nat /\
  (forall yf, yf_at = (fun _ => yf) ->
              fst (main_runs yf_at dm dm_yesterday)
              = (compute yf dm, compute yf dm_yesterday)).
Proof.
  unfold main_runs, compute_cached.
  destruct (scores_cached_fresh yf_at (mkObject 0 dm) indicators empty_cache
              indicators_NoDup) as (st1 & Hrun1 & Hcalls1 & Hkeys1).
  { intros t _. reflexivity. }
  rewrite Hrun1.
  destruct (scores_cached_fresh yf_at (mkObject 1 dm_yesterday) indicators st1
              indicators_NoDup) as (st2 & Hrun2 & Hcalls2 & _).
  { intros t _. apply cache_find_None. intros Hin.
    destruct (Hkeys1 _ Hin) as [Hold | Hid]; [exact Hold | discriminate Hid]. }
  rewrite Hrun2. cbn [fst snd].
  split.
  - rewrite Hcalls2, Hcalls1. reflexivity.
  - intros yf ->. rewrite !scores_at_steady. reflexivity.
Qed.

(** ** Rounding *)

Lemma rint_error (x : R) : - (1 / 2) <= IZR (rint x) - x <= 1 / 2.
Proof.
  unfold rint. destruct (base_Int_part x) as [Hlo Hhi].
  destruct (Rlt_dec (x - IZR (Int_part x)) (1 / 2)) as [Hd | Hd]; [lra |].
  destruct (Rlt_dec (1 / 2) (x - IZR (Int_part x))) as [Hu | Hu].
  - rewrite plus_IZR. lra.
  - destruct (Z.even (Int_part x)); [lra | rewrite plus_IZR; lra].
Qed.

Lemma round2_error (x : R) : - 0.005 <= round2 x - x <= 0.005.
Proof.
  unfold round2. pose proof (rint_error (x * 100)). lra.
Qed.

Lemma round2_range (x : R) : 0 <= x <= 100 -> 0 <= round2 x <= 100.
Proof.
  intros Hx. unfold round2. pose proof (rint_error (x * 100)) as He.
  assert (Hlo : (0 <= rint (x * 100))%Z).
  { assert (Hz : (-1 < rint (x * 100))%Z) by (apply lt_IZR; lra). lia. }
  assert (Hhi : (rint (x * 100) <= 10000)%Z).
  { assert (Hz : (rint (x * 100) < 10001)%Z) by (apply lt_IZR; lra). lia. }
  apply IZR_le in Hlo. apply IZR_le in Hhi. lra.
Qed.

(** ** The score tables *)

Lemma weights_column_ok (W : list (string * R)) (keys : list string) :
  (forall k, In k keys -> assoc k W <> None) ->
  weights_column W keys = inr (map (fun k => dict_get W k 0) keys).
Proof.
  induction keys as [| k keys IH]; intros Hall; [reflexivity |].
  cbn [weights_column map]. unfold dict_get at 1.
  destruct (assoc k W) as [w |] eqn:Hk.
  - rewrite IH; [reflexivity |]. intros k' Hk'. apply Hall. right. exact Hk'.
  - exfalso. apply (Hall k); [left; reflexivity | exact Hk].
Qed.

Lemma weights_column_error (W : list (string * R)) (keys : list string)
  (e : table_exn) :
  weights_column W keys = inl e ->
  exists k, e = TableKeyError k /\ In k keys /\ assoc k W = None.
Proof.
  induction keys as [| k keys IH]; [discriminate |].
  cbn [weights_column].
  destruct (assoc k W) as [w |] eqn:Hk.
  - destruct (weights_column W keys) as [e' | ws]; [| discriminate].
    intros [= <-]. destruct (IH eq_refl) as (k' & He & Hin & Hnone).
    exists k'. split; [exact He |]. split; [right; exact Hin | exact Hnone].
  - intros [= <-]. exists k. split; [reflexivity |].
    split; [left; reflexivity | exact Hk].
Qed.

Lemma weights_column_missing (W : list (string * R)) (keys : list string)
  (k : string) :
  In k keys -> assoc k W = None -> exists e, weights_column W keys = inl e.
Proof.
  induction keys as [| k' keys IH]; intros Hin Hnone; [contradiction |].
  cbn [weights_column].
  destruct (assoc k' W) as [w |] eqn:Hk'; [| eauto].
  destruct Hin as [-> | Hin]; [congruence |].
  destruct (IH Hin Hnone) as (e & He). rewrite He. eauto.
Qed.

Lemma zip_rows_columns :
  forall (names : list string) (scores : list pyfloat) (ws : list R),
    length names = length scores -> length names = length ws ->
    map component (zip_rows names scores ws) = names /\
    map score (zip_rows names scores ws) = scores /\
    map weight (zip_rows names scores ws) = ws /\
    map weighted_score (zip_rows names scores ws)
    = zip_mul scores (map Some ws).
Proof.
  induction names as [| n names IH]; intros [| s scores] [| w ws] H1 H2;
    try discriminate; [repeat split |].
  injection H1 as H1. injection H2 as H2.
  destruct (IH scores ws H1 H2) as (Hc & Hs & Hw & Hws).
  cbn [zip_rows map component score weight weighted_score zip_mul].
  rewrite Hc, Hs, Hw, Hws. repeat split.
Qed.

(** The dashboard reads the weights with [WEIGHTS[k]], not with the
    default of [compute]: for a score vector of the right length, the table
    is built exactly when every ticker has a weight, and it then carries
    the display names, the rounded scores and the weights that [compute]
    uses; otherwise building it raises [KeyError], for a ticker without a
    weight. *)
Theorem df_scores_needs_every_weight
  (W : list (string * R)) (individual_vals : list pyfloat) :
  length individual_vals = 8%nat ->
  ((forall k, In k indicators -> assoc k W <> None) ->
   exists rows,
     df_scores W individual_vals = inr rows /\
     map component rows = map snd TICKERS /\
     map score rows = map py_round2 individual_vals /\
     map weight rows = weight_vector W) /\
  (forall k, In k indicators -> assoc k W = None ->
     exists k', df_scores W individual_vals = inl (TableKeyError k') /\
                In k' indicators /\ assoc k' W = None).
Proof.
  intros Hlen. unfold df_scores. fold indicators. split.
  - intros Hall. rewrite (weights_column_ok W indicators Hall).
    fold (weight_vector W).
    rewrite !length_map, Hlen, weight_vector_length.
    change ((length TICKERS =? 8)%nat && (length TICKERS =? length indicators)%nat)
      with true. cbv iota.
    destruct (zip_rows_columns (map snd TICKERS)
                (map py_round2 individual_vals) (weight_vector W))
      as (Hc & Hs & Hw & _).
    + rewrite !length_map. symmetry. exact Hlen.
    + rewrite weight_vector_length. reflexivity.
    + eexists. split; [reflexivity |]. repeat split; assumption.
  - intros k Hin Hnone.
    destruct (weights_column_missing W indicators k Hin Hnone) as (e & He).
    rewrite He.
    destruct (weights_column_error W indicators e He) as (k' & -> & Hin' & Hn').
    exists k'. repeat split; assumption.
Qed.

Lemma df_scores_needs_every_weight_witness :
  length (repeat (Some 50) 8) = 8%nat /\
  df_scores incomplete_weights (repeat (Some 50) 8)
  = inl (TableKeyError "^VIX") /\
  exists rows, df_scores WEIGHTS (repeat (Some 50) 8) = inr rows.
Proof.
  assert (Hlen : length (repeat (Some 50) 8) = 8%nat) by reflexivity.
  destruct (df_scores_needs_every_weight WEIGHTS (repeat (Some 50) 8) Hlen)
    as [Hok _].
  split; [exact Hlen |]. split; [reflexivity |].
  destruct Hok as (rows & Hrows & _).
  - intros k Hk. unfold indicators, TICKERS in Hk. simpl in Hk.
    repeat (destruct Hk as [<- | Hk]; [discriminate |]). contradiction.
  - exists rows. exact Hrows.
Defined.





(** The rows written to [market_stress_data.csv]: for any provider and any
    weights the table is built, with the eight components in the configured
    order followed by the [Composite] row; every number written is within
    0.005 of the value it rounds and lies in [[0, 100]].  A score vector of
    another length makes the construction of the table fail. *)
Theorem df_out_rows :
  (forall (yf : string -> string -> string -> M DataFrame) W dm,
      exists c rs,
        compute_with yf W dm = inr (Some c, map Some rs) /\
        df_out (Some c) (map Some rs)
        = inr (combine (map snd TICKERS) (map Some (map round2 rs))
               ++ [("Composite"%string, Some (round2 c))]) /\
        length (combine (map snd TICKERS) (map Some (map round2 rs))
                ++ [("Composite"%string, Some (round2 c))]) = 9%nat /\
        Forall (fun r => 0 <= round2 r <= 100 /\
                         - 0.005 <= round2 r - r <= 0.005) (c :: rs)) /\
  (forall comp_value individual_values,
      length individual_values <> 8%nat ->
      df_out comp_value individual_values = inl TableValueError).
Proof.
  split.
  - intros yf W dm.
    destruct (compute_with_cases yf W dm) as (rs & _ & Hlen & Hb & Hc).
    eexists. exists rs. split; [exact Hc |].
    split; [| split].
    + unfold df_out. rewrite !length_map, Hlen.
      change (length TICKERS =? length indicators)%nat with true. cbv iota.
      rewrite !map_map. reflexivity.
    + rewrite length_app, length_combine, !length_map, Hlen. reflexivity.
    + constructor.
      * split; [apply round2_range, clamp100_bounds | apply round2_error].
      * eapply Forall_impl; [| exact Hb]. cbv beta. intros r Hr.
        split; [apply round2_range, Hr | apply round2_error].
  - intros comp_value individual_values Hlen. unfold df_out.
    rewrite !length_map.
    destruct (Nat.eqb_spec (length TICKERS) (length individual_values))
      as [Heq | _]; [| reflexivity].
    exfalso. apply Hlen. rewrite <- Heq. reflexivity.
Qed.

(** ** The recorded index series *)

(** The plotted series pairs every date with a value (32 of each); the
    dates increase by one session at a time, each the business day that
    [last_business_day] finds before the next one; and every value lies
    inside the plotted window of 20 to 80. *)
Theorem recorded_series_well_formed :
  length StressIndexPlot.x = 32%nat /\
  length StressIndexPlot.values = 32%nat /\
  Forall (fun d => is_business_day d = true) StressIndexPlot.x /\
  Forall (fun p => last_business_day (snd p) = inr (fst p))
         (combine StressIndexPlot.x (tl StressIndexPlot.x)) /\
  Forall (fun v => 20 < v < 80) StressIndexPlot.values.
Proof.
  split; [reflexivity |]. split; [reflexivity |]. split; [| split].
  - unfold StressIndexPlot.x, StressIndexPlot.dates. cbn [map fst snd].
    repeat constructor.
  - unfold StressIndexPlot.x, StressIndexPlot.dates.
    cbn [map fst snd tl combine]. repeat constructor.
  - unfold StressIndexPlot.values. repeat constructor; lra.
Qed.
